(** * The browser client of Secure-Web-Application-Architecture

    A shallow embedding of [src/frontend/script.js]: the page-switching
    functions, the password-strength meter and the three calls to the
    backend ([register], [login], [analyzeMessage]), followed by the
    properties the specification states about them.

    Conventions of the embedding.
    - Names the script writes as literals and only compares (element ids,
      class names, [localStorage] keys) are Rocq strings.  Text that flows
      through the program (field values, server payloads, messages) is a
      JavaScript string: a sequence of UTF-16 code units.
    - JavaScript numbers are IEEE 754 doubles: Rocq's primitive [float].
    - Host operations whose results the script only passes along (number to
      text, text to number, JSON serialisation, URI escaping, the reading of
      markup) are the fields of [JSRuntime]; every definition and theorem is
      generic in them.
    - The page of [index.html] is not part of the sources: every element the
      script asks for by id exists, and its initial state is arbitrary.
    - Storage has no quota and is not disabled: [setItem] fails only when its
      argument cannot be converted to a string.
    - An inline style takes a value only when it is one of the property:
      a percentage that is negative or not a finite number is not a width,
      and assigning it leaves the width as it was.
    - The floating emojis, the rendering of the globe and of the particles
      and the redirect of the admin button are left out: they touch neither
      storage nor anything the functions below read. *)

From Stdlib Require Import Floats ZArith NArith List Bool Lia.
From stdpp Require Import gmap strings pretty.
Import ListNotations.
Set Warnings "-register-all".

(** ** JavaScript strings *)

(** A string is the list of its UTF-16 code units. *)
Abbreviation JSString := (list N).

(** The code units of an ASCII literal. *)
Definition str (s : string) : JSString :=
  map Ascii.N_of_ascii (String.list_ascii_of_string s).

(** ** JavaScript values, as [JSON.parse] builds them *)

(** [JUndefined] is never produced by the parser; it is what reading a
    missing property gives.  An object is the list of its own properties. *)
Inductive JSValue : Type :=
| JUndefined
| JNull
| JBool (b : bool)
| JNumber (n : float)
| JString (s : JSString)
| JArray (items : list JSValue)
| JObject (props : list (JSString * JSValue)).

(** What a [throw] carries to the [catch] clause. *)
Inductive Error : Type :=
| TypeError      (* property of null/undefined, value without a primitive *)
| URIError       (* encodeURIComponent on a lone surrogate *)
| SyntaxError    (* response.json() on a body that is not JSON *)
| NetworkError.  (* fetch rejected: no response was received *)

(** The own property [name] of an object. *)
Fixpoint own (props : list (JSString * JSValue)) (name : JSString)
  : option JSValue :=
  match props with
  | [] => None
  | (k, v) :: rest => if decide (k = name) then Some v else own rest name
  end.

(** [v.name] for the property names the script reads (access_token,
    is_admin, detail, warning, risk_level, score, action): none of them is
    on a built-in prototype, so only own properties of objects can answer.
    [None] is the TypeError of reading a property of null or undefined. *)
Definition Get (v : JSValue) (name : JSString) : option JSValue :=
  match v with
  | JUndefined | JNull => None
  | JObject props => Some (default JUndefined (own props name))
  | JBool _ | JNumber _ | JString _ | JArray _ => Some JUndefined
  end.

(** [ToBoolean]: the truthiness tested by [if (v)] and [!v]. *)
Definition ToBoolean (v : JSValue) : bool :=
  match v with
  | JUndefined | JNull => false
  | JBool b => b
  | JNumber n => negb (is_zero n || is_nan n)
  | JString s => negb (bool_decide (s = []))
  | JArray _ | JObject _ => true
  end.

(** The host operations the script calls and whose results it only passes
    on. *)
Class JSRuntime : Type := {
  (** Number::toString in radix 10 *)
  Number_toString : float -> JSString;
  (** StringToNumber, the numeric value of a string *)
  StringToNumber : JSString -> float;
  (** the text JSON.stringify produces for a value other than undefined *)
  JSON_text : JSValue -> JSString;
  (** encodeURIComponent; [None] is the URIError on a lone surrogate *)
  encodeURIComponent : JSString -> option JSString;
  (** the text [innerText] reads from an element after its [innerHTML] was
      assigned this markup: tags and character references are parsed, not
      kept *)
  innerHTML_text : JSString -> JSString
}.

(** ** The page: elements, storage and the effects a handler leaves *)

(** The width of an element's inline style: the text the page came with,
    or the percentage the script gave it last.  The script builds that one
    as a number followed by a percent sign; the number is kept as such. *)
Inductive CSSWidth : Type :=
| WidthText (s : JSString)
| WidthPercent (n : float).

(** [n + "%"] is a value of the width property: the number is finite and
    not negative. *)
Definition is_width (n : float) : bool :=
  ((0 <=? n) && (n <? infinity))%float.

(** What the script reads or writes of an element.  [innerText] is the text
    of the element as the property of that name reads it. *)
Record Element : Type := mkElement {
  classList : list string;
  style_display : JSString;
  style_color : JSString;
  style_width : CSSWidth;
  innerText : JSString;
  value : JSString
}.

Record Request : Type := mkRequest {
  url : JSString;
  method : string;
  headers : list (string * JSString);
  body : option JSString
}.

(** What [await fetch(...)] and then [await response.json()] deliver. *)
Record Response : Type := mkResponse {
  status : Z;
  json : option JSValue          (* [None]: the body is not JSON *)
}.

Inductive FetchResult : Type :=
| Rejected                        (* no response: the promise rejects *)
| Resolved (response : Response).

(** [response.ok] *)
Definition ok (r : Response) : bool :=
  (200 <=? status r)%Z && (status r <=? 299)%Z.

(** The state a handler runs in.  The last four fields are histories of
    what the page did to the outside: dialogs shown, errors logged, calls to
    [fetch], calls to [response.json()]. *)
Record State : Type := mkState {
  localStorage : gmap string JSString;
  document : string -> Element;
  globeStarted : bool;
  alerts : list JSString;
  console : list Error;
  requests : list Request;
  bodyReads : nat
}.

Definition set_localStorage (f : gmap string JSString -> gmap string JSString)
  (s : State) : State :=
  mkState (f (localStorage s)) (document s) (globeStarted s)
          (alerts s) (console s) (requests s) (bodyReads s).

Definition set_globeStarted (b : bool) (s : State) : State :=
  mkState (localStorage s) (document s) b
          (alerts s) (console s) (requests s) (bodyReads s).

(** [document.getElementById(id)] followed by an update of the element. *)
Definition update (id : string) (f : Element -> Element) (s : State) : State :=
  mkState (localStorage s)
          (fun i => if decide (i = id) then f (document s i) else document s i)
          (globeStarted s) (alerts s) (console s) (requests s) (bodyReads s).

(** [alert(msg)] for a string. *)
Definition alert (msg : JSString) (s : State) : State :=
  mkState (localStorage s) (document s) (globeStarted s)
          (alerts s ++ [msg]) (console s) (requests s) (bodyReads s).

(** [console.error(e)] *)
Definition console_error (e : Error) (s : State) : State :=
  mkState (localStorage s) (document s) (globeStarted s)
          (alerts s) (console s ++ [e]) (requests s) (bodyReads s).

(** The call [fetch(req)]. *)
Definition fetch (req : Request) (s : State) : State :=
  mkState (localStorage s) (document s) (globeStarted s)
          (alerts s) (console s) (requests s ++ [req]) (bodyReads s).

(** The call [response.json()]. *)
Definition read_body (s : State) : State :=
  mkState (localStorage s) (document s) (globeStarted s)
          (alerts s) (console s) (requests s) (S (bodyReads s)).

(** [el.classList.add(c)], [el.classList.remove(c)], [el.className = c] *)
Definition classList_add (id c : string) : State -> State :=
  update id (fun el =>
    mkElement (if bool_decide (c ∈ classList el) then classList el
               else classList el ++ [c])
              (style_display el) (style_color el) (style_width el)
              (innerText el) (value el)).

Definition classList_remove (id c : string) : State -> State :=
  update id (fun el =>
    mkElement (filter (fun x => x <> c) (classList el))
              (style_display el) (style_color el) (style_width el)
              (innerText el) (value el)).

Definition set_className (id c : string) : State -> State :=
  update id (fun el =>
    mkElement [c] (style_display el) (style_color el) (style_width el)
              (innerText el) (value el)).

Definition set_style_display (id : string) (v : JSString) : State -> State :=
  update id (fun el =>
    mkElement (classList el) v (style_color el) (style_width el)
              (innerText el) (value el)).

Definition set_style_color (id : string) (v : JSString) : State -> State :=
  update id (fun el =>
    mkElement (classList el) (style_display el) v (style_width el)
              (innerText el) (value el)).

(** [el.style.width = n + "%"]: the style takes the percentage when it is a
    width and keeps the width it had when it is not. *)
Definition set_style_width (id : string) (n : float) : State -> State :=
  update id (fun el =>
    mkElement (classList el) (style_display el) (style_color el)
              (if is_width n then WidthPercent n else style_width el)
              (innerText el) (value el)).

Definition set_innerText (id : string) (v : JSString) : State -> State :=
  update id (fun el =>
    mkElement (classList el) (style_display el) (style_color el)
              (style_width el) v (value el)).

(** The user editing a field. *)
Definition set_value (id : string) (v : JSString) : State -> State :=
  update id (fun el =>
    mkElement (classList el) (style_display el) (style_color el)
              (style_width el) (innerText el) v).

(** An element is shown when its class list lacks [hidden]. *)
Definition visible (s : State) (id : string) : Prop :=
  "hidden" ∉ classList (document s id).

(** [localStorage.getItem(key)]; [None] is null. *)
Definition getItem (key : string) (s : State) : option JSString :=
  localStorage s !! key.

Definition removeItem (key : string) : State -> State :=
  set_localStorage (delete key).

(** [!v] for a string: only the empty string is falsy. *)
Definition falsy (v : JSString) : bool := negb (ToBoolean (JString v)).

(** ** Code that may throw *)

(** A statement either completes with a value or throws; both leave a
    state behind. *)
Inductive Result (A : Type) : Type :=
| Ok (a : A) (s : State)
| Thrown (e : Error) (s : State).
Arguments Ok {A} a s.
Arguments Thrown {A} e s.

Definition Try (A : Type) : Type := State -> Result A.

Definition ret {A} (a : A) : Try A := fun s => Ok a s.

Definition throw {A} (e : Error) : Try A := fun s => Thrown e s.

Definition bind {A B} (c : Try A) (k : A -> Try B) : Try B :=
  fun s => match c s with
           | Ok a s' => k a s'
           | Thrown e s' => Thrown e s'
           end.

(** A statement that cannot throw. *)
Definition exec (f : State -> State) : Try unit := fun s => Ok tt (f s).

(** A conversion that throws [e] when it has no result. *)
Definition orThrow {A} (e : Error) (o : option A) : Try A :=
  match o with
  | Some a => ret a
  | None => throw e
  end.

(** [try { body } catch (error) { handler }] *)
Definition tryCatch (body : Try unit) (handler : Error -> State -> State)
  (s : State) : State :=
  match body s with
  | Ok _ s' => s'
  | Thrown e s' => handler e s'
  end.

(** A statement keeps storage when the state it leaves, by completing or
    by throwing, has the storage it started with. *)
Definition final {A} (r : Result A) : State :=
  match r with
  | Ok _ s | Thrown _ s => s
  end.

Definition keeps_store {A} (c : Try A) : Prop :=
  forall s, localStorage (final (c s)) = localStorage s.

Declare Scope try_scope.
Delimit Scope try_scope with try.
Notation "'let*' x ':=' c 'in' k" := (bind c (fun x => k))
  (at level 10, x name, c at level 100, k at level 200) : try_scope.
Notation "c ';;;' k" := (bind c (fun _ => k))
  (at level 100, k at level 200, right associativity) : try_scope.

Section Client.

Context {rt : JSRuntime}.

(** [ToString].  An array joins its elements with commas (null and
    undefined elements give the empty string).  A parsed object inherits
    Object.prototype.toString unless it has an own property of that name;
    such a property is never callable, and then no method yields a
    primitive: TypeError, here [None]. *)
Fixpoint ToString (v : JSValue) : option JSString :=
  match v with
  | JUndefined => Some (str "undefined")
  | JNull => Some (str "null")
  | JBool b => Some (if b then str "true" else str "false")
  | JNumber n => Some (Number_toString n)
  | JString s => Some s
  | JArray items =>
      let element (x : JSValue) : option JSString :=
        match x with
        | JUndefined | JNull => Some []
        | _ => ToString x
        end in
      (fix join (l : list JSValue) : option JSString :=
         match l with
         | [] => Some []
         | [x] => element x
         | x :: rest =>
             match element x, join rest with
             | Some e, Some r => Some (e ++ str "," ++ r)
             | _, _ => None
             end
         end) items
  | JObject props =>
      match own props (str "toString") with
      | Some _ => None
      | None => Some (str "[object Object]")
      end
  end.

(** [ToNumber]: an object is first turned into a primitive, which for
    parsed values is its string. *)
Definition ToNumber (v : JSValue) : option float :=
  match v with
  | JUndefined => Some nan
  | JNull => Some 0%float
  | JBool b => Some (if b then 1%float else 0%float)
  | JNumber n => Some n
  | JString s => Some (StringToNumber s)
  | JArray _ | JObject _ => StringToNumber <$> ToString v
  end.

(** [JSON.stringify(v)]: undefined for undefined, a string otherwise. *)
Definition JSON_stringify (v : JSValue) : JSValue :=
  match v with
  | JUndefined => JUndefined
  | _ => JString (JSON_text v)
  end.

(** [Math.min(x, y)]: NaN if either is NaN; -0 is below +0. *)
Definition Math_min (x y : float) : float :=
  if is_nan x || is_nan y then nan
  else
    match classify y, classify x with
    | NZero, PZero => y
    | _, _ => if (y <? x)%float then y else x
    end.

(** ** Statements of the script that may throw *)

(** [data.name] *)
Definition get (data : JSValue) (name : string) : Try JSValue :=
  orThrow TypeError (Get data (str name)).

(** [localStorage.setItem(key, v)]: the value is stored as a string. *)
Definition setItem (key : string) (v : JSValue) : Try unit :=
  (let* text := orThrow TypeError (ToString v) in
   exec (set_localStorage (insert key text)))%try.

(** [alert(v)] for a value of any type. *)
Definition alertValue (v : JSValue) : Try unit :=
  (let* text := orThrow TypeError (ToString v) in
   exec (alert text))%try.

(** [document.getElementById(id).innerText = v]: null gives the empty
    text, any other value its string. *)
Definition assign_innerText (id : string) (v : JSValue) : Try unit :=
  match v with
  | JNull => exec (set_innerText id [])
  | _ => (let* text := orThrow TypeError (ToString v) in
          exec (set_innerText id text))%try
  end.

(** [document.getElementById(id).innerHTML = markup]: the element shows
    what the markup parses to. *)
Definition set_innerHTML (id : string) (markup : JSString) : State -> State :=
  set_innerText id (innerHTML_text markup).

(** [await fetch(...)]: the response, or the rejection thrown. *)
Definition await (r : FetchResult) : Try Response :=
  match r with
  | Rejected => throw NetworkError
  | Resolved response => ret response
  end.

(** [await response.json()] *)
Definition response_json (response : Response) : Try JSValue :=
  (exec read_body ;;;
   orThrow SyntaxError (json response))%try.

(** An async handler runs to completion, or to its [await fetch(...)]:
    then the rest of it runs when the result arrives, on the state of that
    moment. *)
Inductive Async : Type :=
| Done (s : State)
| Await (s : State).

Definition API : JSString :=
  str "https://secure-web-application-architecture-production.up.railway.app".

(** ** PAGE SWITCH *)

(** [initGlobe], without the rendering it starts.  The empty markup is
    no content at all: the container shows the empty text. *)
Definition initGlobe (s : State) : State :=
  if globeStarted s then s
  else
    let s := set_globeStarted true s in
    let s := classList_remove "globeContainer" "hidden" s in
    set_innerText "globeContainer" [] s.

Definition hideAll (s : State) : State :=
  let s := fold_left (fun s id => classList_add id "hidden" s)
             ["landingSection"; "registerSection"; "loginSection";
              "dashboardSection"] s in
  classList_add "globeContainer" "hidden" s.

Definition showLogin (s : State) : State :=
  let s := hideAll s in
  let s := classList_remove "loginSection" "hidden" s in
  initGlobe s.

Definition showRegister (s : State) : State :=
  let s := hideAll s in
  classList_remove "registerSection" "hidden" s.

Definition showDashboard (s : State) : State :=
  let s := hideAll s in
  classList_remove "dashboardSection" "hidden" s.

Definition logout (s : State) : State :=
  let s := removeItem "token" s in
  let s := removeItem "is_admin" s in
  let s := set_style_display "adminBtn" (str "none") s in
  let s := hideAll s in
  classList_remove "landingSection" "hidden" s.

(** ** PASSWORD STRENGTH *)

(** [/[...]/.test(p)]: some code unit of [p] is in the class. *)
Definition test (class : N -> bool) (p : JSString) : bool := existsb class p.

Definition upper (c : N) : bool := (65 <=? c)%N && (c <=? 90)%N.
Definition lower (c : N) : bool := (97 <=? c)%N && (c <=? 122)%N.
Definition digit (c : N) : bool := (48 <=? c)%N && (c <=? 57)%N.

(** The punctuation class of the fifth rule: the twenty characters of the
    literal below, where 34 is the double quote. *)
Definition punctuation : JSString :=
  str "!@#$%^&*(),.?" ++ [34%N] ++ str ":{}|<>".

Definition special (c : N) : bool := bool_decide (c ∈ punctuation).

Definition checks (p : JSString) : list bool :=
  [ (8 <=? length p)%nat;
    test upper p;
    test lower p;
    test digit p;
    test special p ].

Definition ids : list string :=
  ["rule-length"; "rule-upper"; "rule-lower"; "rule-number"; "rule-special"].

(** One round of [checks.forEach((valid, i) => ...)] on the element
    [ids[i]]; 9989 and 10060 are the check mark and the cross. *)
Definition mark (acc : State * nat) (rule : bool * string) : State * nat :=
  let '(s, score) := acc in
  let '(valid, id) := rule in
  let el := document s id in
  if valid then
    let s := set_innerHTML id ([9989%N; 32%N] ++ drop 2 (innerText el)) s in
    let s := set_style_color id (str "limegreen") s in
    (s, S score)
  else
    let s := set_innerHTML id ([10060%N; 32%N] ++ drop 2 (innerText el)) s in
    let s := set_style_color id (str "red") s in
    (s, score).

(** The class the bar gets for a score. *)
Definition tier (score : nat) : string :=
  if (score <=? 2)%nat then "weak"
  else if (score <=? 4)%nat then "medium"
  else "strong".

Definition checkStrength (s : State) : State :=
  let p := value (document s "regPassword") in
  let '(s, score) := fold_left mark (combine (checks p) ids) (s, 0%nat) in
  let s := set_className "strengthBar" "strength-bar" s in
  classList_add "strengthBar" (tier score) s.

(** The value of the local variable [score] when the loop is over. *)
Definition score (s : State) : nat :=
  snd (fold_left mark
         (combine (checks (value (document s "regPassword"))) ids)
         (s, 0%nat)).

(** ** BACKEND CONNECTION *)

(** *** REGISTER *)

Definition register_catch (e : Error) (s : State) : State :=
  let s := console_error e s in
  alert (str "Server not running") s.

(** [register] up to its [await fetch(...)]. *)
Definition register_begin (s : State) : Async :=
  let username := value (document s "regUsername") in
  let password := value (document s "regPassword") in
  if falsy username || falsy password then
    Done (alert (str "Please fill all fields") s)
  else
    match encodeURIComponent username, encodeURIComponent password with
    | Some u, Some p =>
        Await (fetch (mkRequest
                        (API ++ str "/register?username=" ++ u
                             ++ str "&password=" ++ p)
                        "POST" [] None) s)
    | _, _ => Done (register_catch URIError s)
    end.

(** The rest of [register], once [fetch] has settled. *)
Definition register_then (r : FetchResult) : State -> State :=
  tryCatch
    (let* response := await r in
     let* data := response_json response in
     if ok response then
       exec (alert (str "Registered Successfully " ++ [9989%N])) ;;;
       exec showLogin
     else
       let* detail := get data "detail" in
       alertValue (match detail with
                   | JString _ => detail
                   | _ => JSON_stringify detail
                   end))%try
    register_catch.

(** A whole call of [register], with the result [fetch] will have. *)
Definition register (r : FetchResult) (s : State) : State :=
  match register_begin s with
  | Done s' => s'
  | Await s' => register_then r s'
  end.

(** *** LOGIN *)

Definition login_catch (e : Error) (s : State) : State :=
  let s := console_error e s in
  alert (str "Server not running") s.

Definition login_begin (s : State) : Async :=
  let username := value (document s "loginUsername") in
  let password := value (document s "loginPassword") in
  if falsy username || falsy password then
    Done (alert (str "Please fill all fields") s)
  else
    match encodeURIComponent username, encodeURIComponent password with
    | Some u, Some p =>
        Await (fetch (mkRequest
                        (API ++ str "/login?username=" ++ u
                             ++ str "&password=" ++ p)
                        "POST" [] None) s)
    | _, _ => Done (login_catch URIError s)
    end.

(** 55357 56960 is the rocket that ends the success message. *)
Definition login_then (r : FetchResult) : State -> State :=
  tryCatch
    (let* response := await r in
     if (status response =? 429)%Z then
       exec (alert (str "Too many requests. Try again later."))
     else
       let* data := response_json response in
       if ok response then
         let* access_token := get data "access_token" in
         setItem "token" access_token ;;;
         let* is_admin := get data "is_admin" in
         setItem "is_admin" is_admin ;;;
         let* is_admin := get data "is_admin" in
         exec (match is_admin with
               | JBool true =>
                   set_style_display "adminBtn" (str "inline-block")
               | _ => set_style_display "adminBtn" (str "none")
               end) ;;;
         exec (alert (str "Login successful " ++ [55357%N; 56960%N])) ;;;
         exec showDashboard
       else
         let* detail := get data "detail" in
         alertValue detail)%try
    login_catch.

Definition login (r : FetchResult) (s : State) : State :=
  match login_begin s with
  | Done s' => s'
  | Await s' => login_then r s'
  end.

(** *** ANALYZE *)

Definition analyzeMessage_catch (e : Error) (s : State) : State :=
  let s := console_error e s in
  alert (str "Server error") s.

Definition analyzeMessage_begin (s : State) : Async :=
  let message := value (document s "message") in
  let token := getItem "token" s in
  if falsy message then
    Done (alert (str "Please enter a message") s)
  else
    match token with
    | None => Done (alert (str "Please login first") s)
    | Some token =>
        if falsy token then
          Done (alert (str "Please login first") s)
        else
          Await (fetch (mkRequest
                          (API ++ str "/analyze")
                          "POST"
                          [("Content-Type", str "application/json");
                           ("Authorization", str "Bearer " ++ token)]
                          (Some (JSON_text
                                   (JObject
                                      [(str "text", JString message);
                                       (str "user_id", JString (str "temp"))]))))
                   s)
    end.

Definition analyzeMessage_then (r : FetchResult) : State -> State :=
  tryCatch
    (let* response := await r in
     let* data := response_json response in
     if negb (ok response) then
       let* detail := get data "detail" in
       alertValue detail
     else
       let* warning := get data "warning" in
       (if ToBoolean warning then alertValue warning else ret tt) ;;;
       exec (classList_remove "result" "hidden") ;;;
       let* risk_level := get data "risk_level" in
       assign_innerText "risk" risk_level ;;;
       let* score := get data "score" in
       assign_innerText "score" score ;;;
       let* action := get data "action" in
       assign_innerText "action" action ;;;
       let* score := get data "score" in
       let* n := orThrow TypeError (ToNumber score) in
       exec (set_style_width "riskMeter" (Math_min (n * 10) 100)))%try
    analyzeMessage_catch.

Definition analyzeMessage (r : FetchResult) (s : State) : State :=
  match analyzeMessage_begin s with
  | Done s' => s'
  | Await s' => analyzeMessage_then r s'
  end.

(** ** The page as a transition system *)

(** One turn of the event loop: the user edits a field, a handler runs up
    to its [await] or to its end, or the result of some earlier [fetch]
    arrives and the rest of that handler runs.  A result may arrive at any
    later turn, whatever ran in between.  [served] says which results the
    login endpoint can deliver. *)
Definition state_of (a : Async) : State :=
  match a with
  | Done s | Await s => s
  end.

Inductive step (served : FetchResult -> Prop) : State -> State -> Prop :=
| step_edit id v s : step served s (set_value id v s)
| step_showLogin s : step served s (showLogin s)
| step_showRegister s : step served s (showRegister s)
| step_showDashboard s : step served s (showDashboard s)
| step_logout s : step served s (logout s)
| step_checkStrength s : step served s (checkStrength s)
| step_register s : step served s (state_of (register_begin s))
| step_register_then r s : step served s (register_then r s)
| step_login s : step served s (state_of (login_begin s))
| step_login_then r s : served r -> step served s (login_then r s)
| step_analyzeMessage s : step served s (state_of (analyzeMessage_begin s))
| step_analyzeMessage_then r s : step served s (analyzeMessage_then r s).

End Client.

(** A runtime to evaluate the model on concrete inputs.  Numbers print
    as the digits of their integer part (right for integers of magnitude
    below 10^21), escaping is the identity (right for letters and digits)
    and markup reads as its own text (right for words separated by single
    spaces, with no tag and no character reference); the other two
    conversions are constant, and the concrete statements below never look
    at their results. *)
Definition integer_text (x : float) : JSString :=
  match Prim2SF x with
  | S754_zero _ => str "0"
  | S754_infinity sign => str (if sign then "-Infinity" else "Infinity")
  | S754_nan => str "NaN"
  | S754_finite sign m e =>
      let n := if (0 <=? e)%Z then (Z.pos m * 2 ^ e)%Z
               else (Z.pos m / 2 ^ (- e))%Z in
      (if sign then str "-" else []) ++ str (pretty n)
  end.

Definition plain_runtime : JSRuntime :=
  {| Number_toString := integer_text;
     StringToNumber := fun _ => nan;
     JSON_text := fun _ => str "null";
     encodeURIComponent := fun s => Some s;
     innerHTML_text := fun markup => markup |}.

(** A page where nothing is stored, nothing is typed and every element but
    the landing section carries the class hidden. *)
Definition blank : Element :=
  mkElement [] [] [] (WidthText []) [] [].

Definition fresh_page : State :=
  mkState ∅
    (fun id => if decide (id = "landingSection") then blank
               else mkElement ["hidden"] [] [] (WidthText []) [] [])
    false [] [] [] 0.

(** ** Vocabulary of the specification *)

(** The four primary states of the interface, by the section that shows
    each: Landing, Register, Login, Dashboard. *)
Definition sections : list string :=
  ["landingSection"; "registerSection"; "loginSection"; "dashboardSection"].

(** Exactly the section [id] is shown. *)
Definition only_visible (s : State) (id : string) : Prop :=
  forall i, i ∈ sections -> (visible s i <-> i = id).

(** The five rules of the strength report, in the words of the
    specification: length at least 8, an uppercase letter (A to Z), a
    lowercase letter (a to z), a digit (0 to 9), a symbol of the fixed
    punctuation set. *)
Inductive RuleId : Type :=
| RuleLength | RuleUpper | RuleLower | RuleDigit | RuleSymbol.

Definition holds (r : RuleId) (p : JSString) : Prop :=
  match r with
  | RuleLength => 8 <= length p
  | RuleUpper => Exists (fun c => (65 <= c <= 90)%N) p
  | RuleLower => Exists (fun c => (97 <= c <= 122)%N) p
  | RuleDigit => Exists (fun c => (48 <= c <= 57)%N) p
  | RuleSymbol => Exists (fun c => c ∈ punctuation) p
  end.

#[global] Instance holds_dec (r : RuleId) (p : JSString) : Decision (holds r p).
Proof. destruct r; simpl; apply _. Defined.

(** The rules a password satisfies; the score of the report is their
    number. *)
Definition satisfiedRules (p : JSString) : list RuleId :=
  filter (fun r => holds r p)
    [RuleLength; RuleUpper; RuleLower; RuleDigit; RuleSymbol].

(** The error outcomes of a call that reached the network: no response
    (transport failure), or a response whose status is not 2xx (429, the
    rate limit, among them). *)
Definition failed (r : FetchResult) : Prop :=
  match r with
  | Rejected => True
  | Resolved response => ok response = false
  end.

(** The field [name] of a body converts to a string: true of strings,
    numbers, booleans, null and of a missing field. *)
Definition printable {rt : JSRuntime} (data : JSValue) (name : string)
  : Prop :=
  forall v, Get data (str name) = Some v -> is_Some (ToString v).

(** What the client relies on from the login endpoint (its 2xx body is
    access_token: string, is_admin: boolean): the is_admin field of a JSON
    body converts to a string. *)
Definition login_contract {rt : JSRuntime} (r : FetchResult) : Prop :=
  forall response data,
    r = Resolved response -> json response = Some data ->
    printable data "is_admin".

(** The token entry and the is_admin entry are both present or both
    absent. *)
Definition paired (s : State) : Prop :=
  is_Some (getItem "token" s) <-> is_Some (getItem "is_admin" s).

(** From [s] to [s'] storage is untouched, or both entries were written,
    or both were removed. *)
Definition writes_or_clears_both (s s' : State) : Prop :=
  localStorage s' = localStorage s
  \/ (exists t a,
        localStorage s'
        = <["is_admin" := a]> (<["token" := t]> (localStorage s)))
  \/ localStorage s' = delete "is_admin" (delete "token" (localStorage s)).



(** The login form filled in. *)
Definition login_page : State :=
  set_value "loginUsername" (str "alice")
    (set_value "loginPassword" (str "secret") fresh_page).

(** The 2xx body of the specification's end-to-end example. *)
Definition admin_body : JSValue :=
  JObject [(str "access_token", JString (str "abc"));
           (str "is_admin", JBool true)].


(** A message typed on a page that holds no token. *)
Definition anonymous_page : State :=
  set_value "message" (str "hello") fresh_page.

Set Warnings "-inexact-float".

(** ** PASSWORD TOGGLE, DARK MODE and the particles *)

(** What [togglePassword(id, icon)] reads and writes: the [type] of the
    input and the text of the icon it is given. *)
Record PasswordField : Type := mkPasswordField {
  input_type : JSString;
  icon_text : JSString
}.

(** 55357 56385 is the eye, 55357 56904 the monkey covering its eyes. *)
Definition togglePassword (f : PasswordField) : PasswordField :=
  let type :=
    if decide (input_type f = str "password") then str "text"
    else str "password" in
  mkPasswordField type
    (if decide (type = str "password") then [55357%N; 56385%N]
     else [55357%N; 56904%N]).

(** The options [tsParticles.load] is given. *)
Record ParticleOptions : Type := mkParticleOptions {
  particles_color : string;
  links_enable : bool;
  links_color : string;
  links_opacity : float;
  number_value : float;
  size_value : float;
  move_enable : bool;
  move_speed : float;
  onHover_enable : bool;
  onHover_mode : string;
  grab_distance : float;
  grab_links_opacity : float;
  background_color : string
}.

(** The options of [loadParticlesDark] and [loadParticlesLight]. *)
Definition loadParticlesDark : ParticleOptions :=
  mkParticleOptions "#ffffff" true "#ffffff" 0.4 60 3 true 2
    true "grab" 200 1 "transparent".

Definition loadParticlesLight : ParticleOptions :=
  mkParticleOptions "#222222" true "#444444" 0.6 60 3 true 2
    true "grab" 200 1 "transparent".

(** The theme of the page: the classes of [document.body] and the options
    the particles were last loaded with. *)
Record Theme : Type := mkTheme {
  body_classList : list string;
  loaded : ParticleOptions
}.

Definition applyParticlesByTheme (th : Theme) : Theme :=
  if bool_decide ("light-mode" ∈ body_classList th) then
    mkTheme (body_classList th) loadParticlesLight
  else
    mkTheme (body_classList th) loadParticlesDark.

(** [classList.toggle(c)]: remove the class when present, add it when not. *)
Definition classList_toggle (c : string) (l : list string) : list string :=
  if bool_decide (c ∈ l) then filter (fun x => x <> c) l else l ++ [c].

(** The click handler of the theme button. *)
Definition themeToggle_onclick (th : Theme) : Theme :=
  let th := mkTheme (classList_toggle "light-mode" (body_classList th))
                    (loaded th) in
  applyParticlesByTheme th.

(** An element after [classList.add("hidden")]. *)
Definition with_hidden (el : Element) : Element :=
  mkElement (if bool_decide ("hidden" ∈ classList el) then classList el
             else classList el ++ ["hidden"])
            (style_display el) (style_color el) (style_width el)
            (innerText el) (value el).

(** The markup one round of the forEach loop gives an indicator that
    reads [old]: the mark of the verdict, a space, and [old] from its third
    code unit on. *)
Definition verdict (valid : bool) (old : JSString) : JSString :=
  (if valid then [9989%N; 32%N] else [10060%N; 32%N]) ++ drop 2 old.

(** Markup that reads back as written: text the page neither parses into
    something else nor lays out differently. *)
Definition reads_back {rt : JSRuntime} (markup : JSString) : Prop :=
  innerHTML_text markup = markup.

(** An indicator after one round of the forEach loop: the colour of the
    verdict, and what its markup reads as. *)
Definition marked {rt : JSRuntime} (valid : bool) (el : Element) : Element :=
  mkElement (classList el) (style_display el)
            (if valid then str "limegreen" else str "red")
            (style_width el)
            (innerHTML_text (verdict valid (innerText el)))
            (value el).

(** The element that shows the verdict of each rule. *)
Definition rule_id (r : RuleId) : string :=
  match r with
  | RuleLength => "rule-length"
  | RuleUpper => "rule-upper"
  | RuleLower => "rule-lower"
  | RuleDigit => "rule-number"
  | RuleSymbol => "rule-special"
  end.

(** A login answer that grants a session: a 2xx status and a JSON body
    whose access_token converts to the string [t] and whose is_admin
    converts to the string [a]. *)
Definition grants {rt : JSRuntime} (response : Response) (t a : JSString)
  : Prop :=
  ok response = true
  /\ exists data vt va,
       json response = Some data
       /\ Get data (str "access_token") = Some vt /\ ToString vt = Some t
       /\ Get data (str "is_admin") = Some va /\ ToString va = Some a.

(** The request analyzeMessage sends for a message and a token. *)
Definition analyze_request {rt : JSRuntime} (message token : JSString)
  : Request :=
  mkRequest (API ++ str "/analyze") "POST"
    [("Content-Type", str "application/json");
     ("Authorization", str "Bearer " ++ token)]
    (Some (JSON_text (JObject [(str "text", JString message);
                               (str "user_id", JString (str "temp"))]))).

(** The guard of [initGlobe] is set. *)
Definition started (s : State) : Prop := globeStarted s = true.

(** A statement keeps a property of the state when the state it leaves,
    by completing or by throwing, has it whenever the one it started in
    had it. *)
Definition preserves {A} (P : State -> Prop) (c : Try A) : Prop :=
  forall s, P s -> P (final (c s)).

(** The register form filled in. *)
Definition register_page : State :=
  set_value "regUsername" (str "alice")
    (set_value "regPassword" (str "Passw0rd!") fresh_page).

(** Bodies a server may answer with. *)
Definition detail_body (m : string) : JSValue :=
  JObject [(str "detail", JString (str m))].

Definition user_body : JSValue :=
  JObject [(str "access_token", JString (str "xyz"));
           (str "is_admin", JBool false)].



(** No surrogate stands alone: what encodeURIComponent asks of a
    string. *)
Fixpoint well_formed (s : JSString) : bool :=
  match s with
  | [] => true
  | c :: rest =>
      if (55296 <=? c)%N && (c <=? 56319)%N then
        match rest with
        | d :: rest' =>
            (56320 <=? d)%N && (d <=? 57343)%N && well_formed rest'
        | [] => false
        end
      else if (56320 <=? c)%N && (c <=? 57343)%N then false
      else well_formed rest
  end.

(** [plain_runtime] with the URIError of encodeURIComponent. *)
Definition strict_runtime : JSRuntime :=
  {| Number_toString := integer_text;
     StringToNumber := fun _ => nan;
     JSON_text := fun _ => str "null";
     encodeURIComponent := fun s => if well_formed s then Some s else None;
     innerHTML_text := fun markup => markup |}.

(** The login form with a lone high surrogate typed as username. *)
Definition odd_login_page : State :=
  set_value "loginUsername" [55357%N]
    (set_value "loginPassword" (str "secret") fresh_page).

(** A 2xx login body whose is_admin has no string form: an object with an
    own toString entry. *)
Definition unprintable_flag_body : JSValue :=
  JObject [(str "access_token", JString (str "abc"));
           (str "is_admin", JObject [(str "toString", JNumber 1)])].

(** The page login leaves when it is answered with that body. *)
Definition half_session : State :=
  login (rt := plain_runtime)
    (Resolved (mkResponse 200 (Some unprintable_flag_body))) login_page.



(** The register form filled in, each indicator with a cross and its
    label. *)
Definition labelled_page : State :=
  fold_right
    (fun '(id, label) => set_innerText id ([10060%N; 32%N] ++ str label))
    register_page
    [("rule-length", "At least 8 characters");
     ("rule-upper", "Uppercase letter");
     ("rule-lower", "Lowercase letter");
     ("rule-number", "Number");
     ("rule-special", "Special character")].

(** * Properties *)

(** ** Doubles *)

(** The comparisons of [float] are those of its specification
    [SpecFloat]; the order facts needed below are read off [SFcompare]. *)
Section Doubles.

Local Open Scope float_scope.

















End Doubles.

Section Properties.

Context {rt : JSRuntime}.

(** ** Validation before a request *)

Lemma falsy_spec (v : JSString) : falsy v = true <-> v = [].
Proof.
  unfold falsy; simpl. rewrite negb_involutive, bool_decide_eq_true. tauto.
Qed.

(** C7. Whenever the username or the password field is empty, register and
    login show "Please fill all fields" (the validation error) and do nothing
    else: no call to fetch, and storage and page stay as they were,
    whatever the network would have answered. *)
Theorem empty_field_rejected (r : FetchResult) (s : State) :
  (value (document s "regUsername") = []
   \/ value (document s "regPassword") = [] ->
   register r s = alert (str "Please fill all fields") s
   /\ requests (register r s) = requests s)
  /\
  (value (document s "loginUsername") = []
   \/ value (document s "loginPassword") = [] ->
   login r s = alert (str "Please fill all fields") s
   /\ requests (login r s) = requests s).
Proof.
  split; intros H.
  - assert (E : falsy (value (document s "regUsername"))
                || falsy (value (document s "regPassword")) = true).
    { apply orb_true_iff. rewrite !falsy_spec. exact H. }
    unfold register, register_begin. rewrite E. split; reflexivity.
  - assert (E : falsy (value (document s "loginUsername"))
                || falsy (value (document s "loginPassword")) = true).
    { apply orb_true_iff. rewrite !falsy_spec. exact H. }
    unfold login, login_begin. rewrite E. split; reflexivity.
Qed.

Lemma alert_inj (a b : JSString) (s : State) : alert a s = alert b s -> a = b.
Proof.
  intros H. apply (f_equal alerts) in H. simpl in H.
  apply app_inv_head in H. congruence.
Qed.

(** What a handler that reached its [await] has done so far: one call to
    [fetch], nothing else. *)
Lemma login_begin_Await (s s0 : State) :
  login_begin s = Await s0 -> exists req, s0 = fetch req s.
Proof.
  unfold login_begin.
  destruct (falsy _ || falsy _); [discriminate |].
  destruct (encodeURIComponent _); [| discriminate].
  destruct (encodeURIComponent _); [| discriminate].
  intros [= <-]. eauto.
Qed.

Lemma analyzeMessage_begin_Await (s s0 : State) :
  analyzeMessage_begin s = Await s0 ->
  exists req token,
    s0 = fetch req s
    /\ value (document s "message") <> []
    /\ getItem "token" s = Some token /\ token <> [].
Proof.
  unfold analyzeMessage_begin.
  destruct (falsy (value _)) eqn:Em; [discriminate |].
  destruct (getItem "token" s) as [token |]; [| discriminate].
  destruct (falsy token) eqn:Et; [discriminate |].
  intros [= <-]. eexists _, token. repeat split.
  - intros E. apply falsy_spec in E. congruence.
  - intros E. apply falsy_spec in E. congruence.
Qed.

(** Without a stored token [analyzeMessage] never calls fetch, and it
    asks for a login when the message is not empty. *)
Lemma analyzeMessage_without_token (r : FetchResult) (s : State) :
  getItem "token" s = None ->
  requests (analyzeMessage r s) = requests s
  /\ (value (document s "message") <> [] ->
      analyzeMessage r s = alert (str "Please login first") s).
Proof.
  intros Ht. unfold analyzeMessage, analyzeMessage_begin. rewrite Ht.
  destruct (falsy _) eqn:E; split; try reflexivity.
  intros Hm. apply falsy_spec in E. contradiction.
Qed.

(** C4. analyzeMessage checks its two preconditions before it calls fetch.
    An empty message gives "Please enter a message" (the validation error)
    and nothing else.  A non-empty message with no token stored gives
    "Please login first" (unauthenticated) and nothing else.  In both cases
    the list of fetch calls is unchanged, and it can only have changed when
    the message was non-empty and a non-empty token was stored. *)
Theorem analyze_preconditions (r : FetchResult) (s : State) :
  (value (document s "message") = [] ->
   analyzeMessage r s = alert (str "Please enter a message") s
   /\ requests (analyzeMessage r s) = requests s)
  /\
  (value (document s "message") <> [] -> getItem "token" s = None ->
   analyzeMessage r s = alert (str "Please login first") s)
  /\
  (getItem "token" s = None ->
   requests (analyzeMessage r s) = requests s)
  /\
  (requests (analyzeMessage r s) <> requests s ->
   value (document s "message") <> []
   /\ exists token, getItem "token" s = Some token /\ token <> []).
Proof.
  unfold analyzeMessage.
  split; [| split; [| split]].
  - intros H. unfold analyzeMessage_begin. rewrite H. split; reflexivity.
  - intros Hm Ht. unfold analyzeMessage_begin. rewrite Ht.
    destruct (falsy _) eqn:E; [| reflexivity].
    apply falsy_spec in E. contradiction.
  - intros Ht. unfold analyzeMessage_begin. rewrite Ht.
    destruct (falsy _); reflexivity.
  - intros H.
    destruct (analyzeMessage_begin s) as [s' | s'] eqn:E.
    + exfalso. revert E. unfold analyzeMessage_begin.
      destruct (falsy _).
      * intros [= <-]. apply H. reflexivity.
      * destruct (getItem "token" s) as [token |].
        -- destruct (falsy token); intros [= <-]; apply H; reflexivity.
        -- intros [= <-]. apply H. reflexivity.
    + apply analyzeMessage_begin_Await in E as (? & token & ? & ? & ? & ?).
      eauto.
Qed.

(** C10. The empty-message test comes first: with an empty message the
    outcome is "Please enter a message" whether or not a token is stored,
    in particular when none is; and analyzeMessage ends with "Please login
    first" only for a message that is not empty. *)
Theorem empty_message_checked_first (r : FetchResult) (s : State) :
  (value (document s "message") = [] ->
   analyzeMessage r s = alert (str "Please enter a message") s)
  /\
  (value (document s "message") = [] -> getItem "token" s = None ->
   analyzeMessage r s = alert (str "Please enter a message") s
   /\ analyzeMessage r s <> alert (str "Please login first") s)
  /\
  (analyzeMessage_begin s = Done (alert (str "Please login first") s) ->
   value (document s "message") <> []).
Proof.
  assert (E0 : value (document s "message") = [] ->
               analyzeMessage_begin s
               = Done (alert (str "Please enter a message") s)).
  { intros H. unfold analyzeMessage_begin. rewrite H. reflexivity. }
  split; [| split].
  - intros H. unfold analyzeMessage. rewrite (E0 H). reflexivity.
  - intros H _. unfold analyzeMessage. rewrite (E0 H). split; [reflexivity |].
    intros E. apply alert_inj in E. discriminate E.
  - intros E H. rewrite (E0 H) in E.
    apply (f_equal state_of) in E. apply alert_inj in E. discriminate E.
Qed.

(** ** Outcomes of login *)

(** Unfolding the statements of a [try] block. *)
Ltac try_unfold :=
  cbv beta iota delta
    [tryCatch bind ret throw exec orThrow await response_json
     get setItem alertValue].

(** C2. A login call that reached the network and was answered with
    status 429 shows "Too many requests. Try again later." (rate limited)
    and does nothing else: response.json() is not called, whatever the body
    is; storage, page and console are as before the call. *)
Theorem login_429_rate_limited (response : Response) (s s0 : State) :
  login_begin s = Await s0 ->
  status response = 429%Z ->
  let s' := login (Resolved response) s in
  alerts s' = alerts s ++ [str "Too many requests. Try again later."]
  /\ bodyReads s' = bodyReads s
  /\ localStorage s' = localStorage s
  /\ document s' = document s
  /\ globeStarted s' = globeStarted s
  /\ console s' = console s.
Proof.
  intros Hb Hs. unfold login. rewrite Hb.
  apply login_begin_Await in Hb as [req ->].
  unfold login_then. try_unfold. rewrite Hs. simpl.
  repeat split; reflexivity.
Qed.

(** ** The page after a transition *)

Lemma update_same (id : string) (f : Element -> Element) (s : State) :
  document (update id f s) id = f (document s id).
Proof. simpl. rewrite decide_True; reflexivity. Qed.

Lemma update_other (id : string) (f : Element -> Element) (s : State)
  (i : string) :
  i <> id -> document (update id f s) i = document s i.
Proof. intros H. simpl. rewrite decide_False; [reflexivity | exact H]. Qed.

Lemma add_elem (c : string) (l : list string) :
  c ∈ (if bool_decide (c ∈ l) then l else l ++ [c]).
Proof.
  case_bool_decide; [assumption |].
  apply elem_of_app. right. apply list_elem_of_singleton. reflexivity.
Qed.

Lemma remove_not_elem (c : string) (l : list string) :
  c ∉ filter (fun x => x <> c) l.
Proof. rewrite list_elem_of_filter. tauto. Qed.

(** Rewriting [document (op ... s) i] for the concrete ids of the script. *)
Ltac dom :=
  unfold classList_add, classList_remove, set_className, set_style_display,
    set_style_color, set_style_width, set_innerText, set_value;
  repeat (rewrite update_same || rewrite update_other by discriminate);
  cbn [classList style_display style_color style_width innerText value].

Lemma hideAll_hidden (s : State) (id : string) :
  id ∈ ["landingSection"; "registerSection"; "loginSection";
        "dashboardSection"; "globeContainer"] ->
  "hidden" ∈ classList (document (hideAll s) id).
Proof.
  intros H. unfold hideAll. cbn [fold_left].
  repeat (apply elem_of_cons in H as [-> | H]);
    [dom; apply add_elem .. | by apply elem_of_nil in H].
Qed.

(** Outside the five elements it hides, [hideAll] leaves the page alone;
    and it never touches more than class lists. *)
Lemma hideAll_other (s : State) (id : string) :
  id ∉ ["landingSection"; "registerSection"; "loginSection";
        "dashboardSection"; "globeContainer"] ->
  document (hideAll s) id = document s id.
Proof.
  intros H. unfold hideAll. cbn [fold_left]. unfold classList_add.
  rewrite !update_other; [reflexivity | intros -> ..];
    apply H; set_solver.
Qed.

Lemma shown_after_hideAll (s : State) (id : string) :
  only_visible (classList_remove id "hidden" (hideAll s)) id.
Proof.
  intros i Hi. unfold visible, classList_remove.
  destruct (decide (i = id)) as [-> | Hne].
  - split; [intros _; reflexivity |]. intros _.
    rewrite update_same. apply remove_not_elem.
  - split; [| contradiction]. intros Hv. exfalso. apply Hv.
    rewrite update_other by exact Hne.
    apply hideAll_hidden. revert Hi. unfold sections.
    rewrite !elem_of_cons. tauto.
Qed.

Lemma initGlobe_sections (s : State) (i : string) :
  i ∈ sections -> document (initGlobe s) i = document s i.
Proof.
  intros Hi. unfold initGlobe.
  destruct (globeStarted s); [reflexivity |].
  assert (i <> "globeContainer").
  { intros ->. unfold sections in Hi.
    rewrite !elem_of_cons, elem_of_nil in Hi. intuition discriminate. }
  unfold set_innerText, classList_remove. rewrite !update_other by assumption.
  reflexivity.
Qed.

(** C9. After showLogin, showRegister, showDashboard and logout exactly one
    of the four sections (landing, register, login, dashboard) is shown:
    the one the function names, logout returning to the landing section;
    the other three carry the class hidden.  This holds from every state
    of the page. *)
Theorem one_section_visible (s : State) :
  only_visible (showLogin s) "loginSection"
  /\ only_visible (showRegister s) "registerSection"
  /\ only_visible (showDashboard s) "dashboardSection"
  /\ only_visible (logout s) "landingSection".
Proof.
  split; [| split; [| split]].
  - intros i Hi. unfold visible, showLogin.
    rewrite initGlobe_sections by exact Hi.
    apply shown_after_hideAll, Hi.
  - apply shown_after_hideAll.
  - apply shown_after_hideAll.
  - apply shown_after_hideAll.
Qed.

Lemma showDashboard_other (s : State) (id : string) :
  id ∉ ["landingSection"; "registerSection"; "loginSection";
        "dashboardSection"; "globeContainer"] ->
  document (showDashboard s) id = document s id.
Proof.
  intros H. unfold showDashboard, classList_remove.
  rewrite update_other; [apply hideAll_other, H |].
  intros ->. apply H. rewrite !elem_of_cons. tauto.
Qed.


Lemma ok_not_429 (response : Response) :
  ok response = true -> (status response =? 429)%Z = false.
Proof. unfold ok. lia. Qed.


(** ** Error outcomes *)

(** Case analysis on every test a [try] block makes. *)
Ltac try_cases :=
  repeat (match goal with
          | |- context [(?a =? ?b)%Z] => destruct (a =? b)%Z eqn:?
          | |- context [json ?r] => destruct (json r) eqn:?
          | |- context [ok ?r] => destruct (ok r) eqn:?
          | |- context [Get ?d ?n] => destruct (Get d n) eqn:?
          | |- context [ToBoolean ?v] => destruct (ToBoolean v) eqn:?
          | |- context [ToString ?v] => destruct (ToString v) eqn:?
          | |- context [ToNumber ?v] => destruct (ToNumber v) eqn:?
          end; cbv beta iota).

Lemma login_then_failed (r : FetchResult) (s : State) :
  failed r ->
  localStorage (login_then r s) = localStorage s
  /\ exists msg, alerts (login_then r s) = alerts s ++ [msg]
                 /\ (r = Rejected -> msg = str "Server not running").
Proof.
  intros F. unfold login_then. try_unfold.
  destruct r as [| response]; simpl in F.
  - split; [reflexivity |]. eexists. split; reflexivity.
  - rewrite F.
    try_cases; (split; [reflexivity |]);
      eexists; (split; [reflexivity | discriminate]).
Qed.

Lemma analyzeMessage_then_failed (r : FetchResult) (s : State) :
  failed r ->
  localStorage (analyzeMessage_then r s) = localStorage s
  /\ exists msg, alerts (analyzeMessage_then r s) = alerts s ++ [msg]
                 /\ (r = Rejected -> msg = str "Server error").
Proof.
  intros F. unfold analyzeMessage_then. try_unfold.
  destruct r as [| response]; simpl in F.
  - split; [reflexivity |]. eexists. split; reflexivity.
  - rewrite F. cbn [negb].
    try_cases; (split; [reflexivity |]);
      eexists; (split; [reflexivity | discriminate]).
Qed.

(** C3. A login or analyze call that reached the network and ended in an
    error (no response, or a status outside 2xx, 429 included) leaves
    localStorage, hence the token and is_admin entries, exactly as it was,
    and shows exactly one message; when no response was received the
    message is the fixed text "Server not running" for login and "Server
    error" for analyze. *)
Theorem failed_call_keeps_session (r : FetchResult) (s s0 : State) :
  failed r ->
  (login_begin s = Await s0 ->
   localStorage (login r s) = localStorage s
   /\ exists msg, alerts (login r s) = alerts s ++ [msg]
                  /\ (r = Rejected -> msg = str "Server not running"))
  /\
  (analyzeMessage_begin s = Await s0 ->
   localStorage (analyzeMessage r s) = localStorage s
   /\ exists msg, alerts (analyzeMessage r s) = alerts s ++ [msg]
                  /\ (r = Rejected -> msg = str "Server error")).
Proof.
  intros F. split; intros Hb.
  - unfold login. rewrite Hb.
    apply login_begin_Await in Hb as [req ->].
    apply (login_then_failed r (fetch req s) F).
  - unfold analyzeMessage. rewrite Hb.
    apply analyzeMessage_begin_Await in Hb as (req & ? & -> & _).
    apply (analyzeMessage_then_failed r (fetch req s) F).
Qed.

(** ** Password strength *)

Lemma test_Exists (class : N -> bool) (P : N -> Prop)
  `{forall c, Decision (P c)} :
  (forall c, class c = true <-> P c) ->
  forall p, test class p = bool_decide (Exists P p).
Proof.
  intros HP p. apply eq_true_iff_eq.
  rewrite bool_decide_eq_true. unfold test.
  rewrite existsb_exists, Exists_exists.
  split; intros (c & Hc & Hcls); exists c;
    (split; [| apply HP, Hcls]);
    [apply list_elem_of_In | apply list_elem_of_In]; exact Hc.
Qed.

(** Each entry of [checks] decides the rule of the same position. *)
Lemma checks_decide (p : JSString) :
  checks p = map (fun r => bool_decide (holds r p))
               [RuleLength; RuleUpper; RuleLower; RuleDigit; RuleSymbol].
Proof.
  unfold checks. cbn [map holds].
  f_equal; [| f_equal; [| f_equal; [| f_equal; [| f_equal]]]].
  - apply eq_true_iff_eq. rewrite Nat.leb_le, bool_decide_eq_true. reflexivity.
  - apply test_Exists. intros c. unfold upper.
    rewrite andb_true_iff, !N.leb_le. reflexivity.
  - apply test_Exists. intros c. unfold lower.
    rewrite andb_true_iff, !N.leb_le. reflexivity.
  - apply test_Exists. intros c. unfold digit.
    rewrite andb_true_iff, !N.leb_le. reflexivity.
  - apply test_Exists. intros c. unfold special.
    apply bool_decide_eq_true.
Qed.

(** The loop adds one to the score for each entry that is true, whatever
    it does to the page. *)
Lemma forEach_score (rules : list (bool * string)) (s : State) (n : nat) :
  snd (fold_left mark rules (s, n))
  = n + length (filter (fun rule => fst rule = true) rules).
Proof.
  revert s n. induction rules as [| [valid id] rules IH]; intros s n.
  - simpl. lia.
  - cbn [fold_left]. unfold mark at 2. destruct valid.
    + rewrite IH. rewrite filter_cons_True by reflexivity. simpl. lia.
    + rewrite IH. rewrite filter_cons_False by discriminate. reflexivity.
Qed.

Lemma score_satisfied (s : State) :
  score s = length (satisfiedRules (value (document s "regPassword"))).
Proof.
  unfold score, satisfiedRules. rewrite forEach_score, checks_decide.
  generalize (value (document s "regPassword")). intros p.
  unfold ids. cbn [map combine].
  repeat (rewrite filter_cons; cbn [fst]).
  rewrite !filter_nil.
  repeat match goal with
         | |- context [bool_decide ?P] =>
             destruct (bool_decide_reflect P); cbn [length]
         end;
    repeat match goal with
           | |- context [decide ?P] => destruct (decide P); try congruence
           end;
    try contradiction; reflexivity.
Qed.

Lemma checkStrength_bar (s : State) :
  classList (document (checkStrength s) "strengthBar")
  = ["strength-bar"; tier (score s)].
Proof.
  unfold checkStrength, score.
  destruct (fold_left mark _ (s, 0)) as [s1 n]. cbn [snd].
  unfold classList_add, set_className. rewrite !update_same.
  cbn [classList].
  rewrite bool_decide_eq_false_2; [reflexivity |].
  rewrite list_elem_of_singleton. unfold tier.
  destruct (n <=? 2); [discriminate |].
  destruct (n <=? 4); discriminate.
Qed.

Lemma score_le_5 (s : State) : score s <= 5.
Proof.
  rewrite score_satisfied. unfold satisfiedRules.
  etransitivity; [apply length_filter | reflexivity].
Qed.

(** C5. The strength meter is a total function of the page, and its report
    depends on the password alone: two pages with the same password get the
    same score and the same bar.  The score is the number of rules among the
    five (length at least 8, a letter A-Z, a letter a-z, a digit 0-9, a
    character of the punctuation set) that the password satisfies.  The bar
    gets the class weak exactly when the score is at most 2, medium exactly
    when it is 3 or 4, strong exactly when it is 5. *)
Theorem checkStrength_report (s : State) :
  let p := value (document s "regPassword") in
  score s = length (satisfiedRules p)
  /\ score s <= 5
  /\ classList (document (checkStrength s) "strengthBar")
     = ["strength-bar"; tier (score s)]
  /\ (tier (score s) = "weak" <-> score s <= 2)
  /\ (tier (score s) = "medium" <-> score s = 3 \/ score s = 4)
  /\ (tier (score s) = "strong" <-> score s = 5)
  /\ (forall s2 : State,
        value (document s2 "regPassword") = p ->
        score s2 = score s
        /\ classList (document (checkStrength s2) "strengthBar")
           = classList (document (checkStrength s) "strengthBar")).
Proof.
  intros p. pose proof (score_le_5 s) as H5.
  split; [apply score_satisfied |].
  split; [exact H5 |].
  split; [apply checkStrength_bar |].
  assert (T : forall n, n <= 5 ->
                (tier n = "weak" <-> n <= 2)
                /\ (tier n = "medium" <-> n = 3 \/ n = 4)
                /\ (tier n = "strong" <-> n = 5)).
  { intros n Hn. unfold tier.
    destruct (Nat.leb_spec n 2); [| destruct (Nat.leb_spec n 4)];
      (repeat split; intros H'; try discriminate H'; try reflexivity; lia). }
  destruct (T (score s) H5) as (T1 & T2 & T3).
  split; [exact T1 |]. split; [exact T2 |]. split; [exact T3 |].
  intros s2 E.
  assert (E2 : score s2 = score s).
  { rewrite !score_satisfied, E. reflexivity. }
  split; [exact E2 |].
  rewrite !checkStrength_bar, E2. reflexivity.
Qed.

(** ** The risk meter *)

Lemma Get_total (data v : JSValue) (name name' : JSString) :
  Get data name = Some v -> exists v', Get data name' = Some v'.
Proof. destruct data; simpl; try discriminate; eauto. Qed.


Local Open Scope float_scope.


Local Close Scope float_scope.

(** ** The two session entries *)

Lemma keeps_ret {A} (a : A) : keeps_store (ret a).
Proof. intros s. reflexivity. Qed.

Lemma keeps_throw {A} (e : Error) : keeps_store (@throw A e).
Proof. intros s. reflexivity. Qed.

Lemma keeps_orThrow {A} (e : Error) (o : option A) :
  keeps_store (orThrow e o).
Proof. destruct o; intros s; reflexivity. Qed.

Lemma keeps_exec (f : State -> State) :
  (forall s, localStorage (f s) = localStorage s) -> keeps_store (exec f).
Proof. intros H s. apply H. Qed.

Lemma keeps_bind {A B} (c : Try A) (k : A -> Try B) :
  keeps_store c -> (forall a, keeps_store (k a)) -> keeps_store (bind c k).
Proof.
  intros Hc Hk s. unfold bind. specialize (Hc s).
  destruct (c s) as [a s1 | e s1]; simpl in Hc.
  - rewrite (Hk a s1). exact Hc.
  - exact Hc.
Qed.

Lemma keeps_tryCatch (body : Try unit) (handler : Error -> State -> State) :
  keeps_store body ->
  (forall e s, localStorage (handler e s) = localStorage s) ->
  forall s, localStorage (tryCatch body handler s) = localStorage s.
Proof.
  intros Hb Hh s. unfold tryCatch. specialize (Hb s).
  destruct (body s) as [a s1 | e s1]; simpl in Hb.
  - exact Hb.
  - rewrite Hh. exact Hb.
Qed.

Lemma store_showLogin (s : State) :
  localStorage (showLogin s) = localStorage s.
Proof.
  unfold showLogin, initGlobe.
  destruct (globeStarted _); reflexivity.
Qed.

Lemma store_forEach (rules : list (bool * string)) (s : State) (n : nat) :
  localStorage (fst (fold_left mark rules (s, n))) = localStorage s.
Proof.
  revert s n. induction rules as [| [valid id] rules IH]; intros s n.
  - reflexivity.
  - cbn [fold_left]. unfold mark at 2. destruct valid; rewrite IH; reflexivity.
Qed.

Lemma store_checkStrength (s : State) :
  localStorage (checkStrength s) = localStorage s.
Proof.
  unfold checkStrength.
  pose proof (store_forEach
                (combine (checks (value (document s "regPassword"))) ids)
                s 0) as H.
  destruct (fold_left mark _ (s, 0)) as [s1 n]. exact H.
Qed.

(** Going through the statements of a [try] block. *)
Ltac keeps :=
  repeat first
    [ apply keeps_ret | apply keeps_throw | apply keeps_orThrow
    | apply keeps_exec; intros ?; first [reflexivity | apply store_showLogin]
    | apply keeps_bind; [| intros ?]
    | match goal with
      | |- keeps_store (if ?b then _ else _) => destruct b
      | |- keeps_store (match ?x with _ => _ end) => destruct x
      end ].

Lemma store_register_then (r : FetchResult) (s : State) :
  localStorage (register_then r s) = localStorage s.
Proof.
  apply keeps_tryCatch; [| reflexivity].
  unfold await, response_json, get, alertValue. keeps.
Qed.

Lemma store_analyzeMessage_then (r : FetchResult) (s : State) :
  localStorage (analyzeMessage_then r s) = localStorage s.
Proof.
  apply keeps_tryCatch; [| reflexivity].
  unfold await, response_json, get, alertValue, assign_innerText. keeps.
Qed.

Lemma store_begin (s : State) :
  localStorage (state_of (register_begin s)) = localStorage s
  /\ localStorage (state_of (login_begin s)) = localStorage s
  /\ localStorage (state_of (analyzeMessage_begin s)) = localStorage s.
Proof.
  unfold register_begin, login_begin, analyzeMessage_begin.
  repeat split;
    repeat match goal with
           | |- context [if ?b then _ else _] => destruct b
           | |- context [match ?x with _ => _ end] => destruct x
           end; reflexivity.
Qed.

(** login writes both entries or none, provided the flag it was sent
    converts to a string. *)
Lemma login_then_writes_both (r : FetchResult) (s : State) :
  login_contract r -> writes_or_clears_both s (login_then r s).
Proof.
  intros C. unfold writes_or_clears_both, login_then. try_unfold.
  destruct r as [| response]; [left; reflexivity |].
  specialize (C response).
  destruct (status response =? 429)%Z; [left; reflexivity |].
  destruct (json response) as [data |]; [| left; reflexivity].
  specialize (C data eq_refl eq_refl).
  destruct (ok response).
  - destruct (Get data (str "access_token")) as [vt |] eqn:Et;
      [| left; reflexivity].
    destruct (ToString vt) as [t |]; [| left; reflexivity].
    destruct (Get_total _ _ _ (str "is_admin") Et) as [va Ea].
    rewrite Ea. destruct (C va Ea) as [a ->].
    right. left. exists t, a.
    destruct va as [| | [|] | | | |]; reflexivity.
  - destruct (Get data (str "detail")) as [vd |]; [| left; reflexivity].
    destruct (ToString vd); left; reflexivity.
Qed.

Lemma step_writes_or_clears_both (served : FetchResult -> Prop)
  (s s' : State) :
  (forall r, served r -> login_contract r) ->
  step served s s' -> writes_or_clears_both s s'.
Proof.
  intros C H. destruct (store_begin s) as (B1 & B2 & B3).
  destruct H.
  - left. reflexivity.
  - left. apply store_showLogin.
  - left. reflexivity.
  - left. reflexivity.
  - right. right. reflexivity.
  - left. apply store_checkStrength.
  - left. exact B1.
  - left. apply store_register_then.
  - left. exact B2.
  - apply login_then_writes_both. apply C. assumption.
  - left. exact B3.
  - left. apply store_analyzeMessage_then.
Qed.

Lemma paired_step (s s' : State) :
  writes_or_clears_both s s' -> paired s -> paired s'.
Proof.
  unfold paired, getItem. intros [E | [(t & a & E) | E]] P; rewrite E.
  - exact P.
  - rewrite lookup_insert_ne by discriminate. rewrite !lookup_insert_eq.
    split; eauto.
  - rewrite lookup_delete_ne by discriminate. rewrite !lookup_delete_eq.
    split; intros [? H]; discriminate H.
Qed.

(** C6, as the code has it. Take a login endpoint whose JSON bodies carry a
    flag that converts to a string (any boolean does).  Then every turn of the page leaves
    localStorage as it was, or writes both the token and the is_admin entry,
    or removes both.  So from a page where the two entries are both present
    or both absent (an empty store, say), every state reached has them both
    present or both absent; and in such a state, when either entry is
    missing, the token is, and analyzeMessage sends nothing and, for a
    message that is not empty, answers "Please login first"
    (unauthenticated).  The script itself reads the token only. *)
Theorem session_entries_paired (served : FetchResult -> Prop) :
  (forall r, served r -> login_contract r) ->
  (forall s s', step served s s' -> writes_or_clears_both s s')
  /\
  (forall init s,
     paired init -> rtc (step served) init s ->
     paired s
     /\ forall r,
          getItem "token" s = None \/ getItem "is_admin" s = None ->
          requests (analyzeMessage r s) = requests s
          /\ (value (document s "message") <> [] ->
              analyzeMessage r s = alert (str "Please login first") s)).
Proof.
  intros C. split.
  - intros s s' H. exact (step_writes_or_clears_both served s s' C H).
  - intros init s P R.
    assert (Ps : paired s).
    { induction R as [| x y z Hxy _ IH]; [exact P |].
      apply IH. eapply paired_step; [| exact P].
      exact (step_writes_or_clears_both served x y C Hxy). }
    split; [exact Ps |].
    intros r Habs.
    assert (Hnone : getItem "token" s = None).
    { destruct Habs as [H | H]; [exact H |].
      destruct (getItem "token" s) eqn:E; [| reflexivity].
      destruct Ps as [Ps _]. destruct (Ps (ltac:(eauto))) as [? H'].
      congruence. }
    destruct (analyzeMessage_without_token r s Hnone) as [A1 A2].
    split; [exact A1 | exact A2].
Qed.

(** * Further properties of the script *)

Lemma register_begin_Await (s s0 : State) :
  register_begin s = Await s0 -> exists req, s0 = fetch req s.
Proof.
  unfold register_begin.
  destruct (falsy _ || falsy _); [discriminate |].
  destruct (encodeURIComponent _); [| discriminate].
  destruct (encodeURIComponent _); [| discriminate].
  intros [= <-]. eauto.
Qed.


(** ** The globe and the page switch *)

Lemma hideAll_started (s : State) : globeStarted (hideAll s) = globeStarted s.
Proof. reflexivity. Qed.

(** X1. The globe belongs to the login section, and is built once.  showLogin
    leaves the guard set; it shows the globe container when the guard was
    not yet set and leaves it hidden when it was (hideAll hides it and
    initGlobe returns at once); the other transitions hide it. *)
Theorem showLogin_globe (s : State) :
  globeStarted (showLogin s) = true
  /\ (visible (showLogin s) "globeContainer" <-> globeStarted s = false)
  /\ ~ visible (showRegister s) "globeContainer"
  /\ ~ visible (showDashboard s) "globeContainer"
  /\ ~ visible (logout s) "globeContainer".
Proof.
  assert (G : forall s0 id, id <> "globeContainer" ->
                "hidden" ∈ classList
                             (document (classList_remove id "hidden"
                                          (hideAll s0)) "globeContainer")).
  { intros s0 id Hid. unfold classList_remove.
    rewrite update_other by congruence.
    apply hideAll_hidden. rewrite !elem_of_cons. tauto. }
  assert (E0 : globeStarted (classList_remove "loginSection" "hidden"
                               (hideAll s)) = globeStarted s).
  { unfold classList_remove, update. cbn [globeStarted].
    apply hideAll_started. }
  split; [| split; [| split; [| split]]].
  - unfold showLogin, initGlobe.
    destruct (globeStarted (classList_remove "loginSection" "hidden"
                              (hideAll s))) eqn:E; [exact E | reflexivity].
  - unfold visible, showLogin, initGlobe. rewrite E0.
    destruct (globeStarted s).
    + split; [| discriminate]. intros H. exfalso. apply H, G. discriminate.
    + split; [reflexivity |]. intros _.
      unfold set_innerText. rewrite update_same. cbn [classList].
      unfold classList_remove at 1. rewrite update_same. cbn [classList].
      apply remove_not_elem.
  - intros H. apply H, G. discriminate.
  - intros H. apply H, G. discriminate.
  - intros H. apply H. unfold logout. apply G. discriminate.
Qed.

Lemma with_hidden_twice (el : Element) :
  with_hidden (with_hidden el) = with_hidden el.
Proof.
  unfold with_hidden. cbn [classList style_display style_color style_width
                           innerText value].
  rewrite (bool_decide_eq_true_2 _ (add_elem "hidden" (classList el))).
  reflexivity.
Qed.

Lemma classList_add_document (i : string) (s : State) (id : string) :
  document (classList_add i "hidden" s) id
  = if decide (id = i) then with_hidden (document s id) else document s id.
Proof. reflexivity. Qed.

(** Adding hidden to a list of elements, one after the other. *)
Lemma add_all_document (l : list string) (s : State) (id : string) :
  document (fold_left (fun s i => classList_add i "hidden" s) l s) id
  = if decide (id ∈ l) then with_hidden (document s id) else document s id.
Proof.
  revert s. induction l as [| i l IH]; intros s.
  - cbn [fold_left]. rewrite decide_False by apply not_elem_of_nil.
    reflexivity.
  - cbn [fold_left]. rewrite IH, classList_add_document.
    destruct (decide (id = i)) as [-> | Hne].
    + rewrite (decide_True (P := i ∈ i :: l))
        by (rewrite elem_of_cons; tauto).
      destruct (decide (i ∈ l)); [apply with_hidden_twice | reflexivity].
    + destruct (decide (id ∈ l)) as [Hl | Hl].
      * rewrite decide_True by (rewrite elem_of_cons; tauto). reflexivity.
      * rewrite decide_False; [reflexivity |].
        rewrite elem_of_cons. tauto.
Qed.

Lemma hideAll_document (s : State) (id : string) :
  document (hideAll s) id
  = if decide (id ∈ ["landingSection"; "registerSection"; "loginSection";
                     "dashboardSection"; "globeContainer"])
    then with_hidden (document s id) else document s id.
Proof.
  rewrite <- (add_all_document _ s id). reflexivity.
Qed.

(** X2. hideAll only adds the class hidden: it removes no class, changes
    nothing but class lists, and a second hideAll changes nothing at all. *)
Theorem hideAll_only_adds (s : State) (id : string) :
  (forall c, c ∈ classList (document s id) ->
             c ∈ classList (document (hideAll s) id))
  /\ style_display (document (hideAll s) id) = style_display (document s id)
  /\ innerText (document (hideAll s) id) = innerText (document s id)
  /\ value (document (hideAll s) id) = value (document s id)
  /\ document (hideAll (hideAll s)) id = document (hideAll s) id.
Proof.
  rewrite !hideAll_document.
  destruct (decide (id ∈ _)) as [Hin | Hout].
  - split; [| split; [| split; [| split]]]; try reflexivity.
    + intros c Hc. unfold with_hidden. cbn [classList].
      case_bool_decide; [exact Hc |]. apply elem_of_app. left. exact Hc.
    + apply with_hidden_twice.
  - repeat split. auto.
Qed.

(** ** The guard of the globe *)

Lemma preserves_ret {A} (P : State -> Prop) (a : A) : preserves P (ret a).
Proof. intros s H. exact H. Qed.

Lemma preserves_throw {A} (P : State -> Prop) (e : Error) :
  preserves P (@throw A e).
Proof. intros s H. exact H. Qed.

Lemma preserves_orThrow {A} (P : State -> Prop) (e : Error) (o : option A) :
  preserves P (orThrow e o).
Proof. destruct o; intros s H; exact H. Qed.

Lemma preserves_exec (P : State -> Prop) (f : State -> State) :
  (forall s, P s -> P (f s)) -> preserves P (exec f).
Proof. intros H s Hs. apply H, Hs. Qed.

Lemma preserves_bind {A B} (P : State -> Prop) (c : Try A) (k : A -> Try B) :
  preserves P c -> (forall a, preserves P (k a)) -> preserves P (bind c k).
Proof.
  intros Hc Hk s Hs. unfold bind. specialize (Hc s Hs).
  destruct (c s) as [a s1 | e s1]; simpl in Hc.
  - apply Hk, Hc.
  - exact Hc.
Qed.

Lemma preserves_tryCatch (P : State -> Prop) (body : Try unit)
  (handler : Error -> State -> State) :
  preserves P body ->
  (forall e s, P s -> P (handler e s)) ->
  forall s, P s -> P (tryCatch body handler s).
Proof.
  intros Hb Hh s Hs. unfold tryCatch. specialize (Hb s Hs).
  destruct (body s) as [a s1 | e s1]; simpl in Hb.
  - exact Hb.
  - apply Hh, Hb.
Qed.

Lemma started_showLogin (s : State) : started (showLogin s).
Proof.
  unfold started, showLogin, initGlobe.
  destruct (globeStarted (classList_remove "loginSection" "hidden"
                            (hideAll s))) eqn:E; [exact E | reflexivity].
Qed.

Lemma started_showDashboard (s : State) :
  started s -> started (showDashboard s).
Proof.
  unfold started, showDashboard, classList_remove, update.
  cbn [globeStarted]. rewrite hideAll_started. tauto.
Qed.

Lemma started_forEach (rules : list (bool * string)) (s : State) (n : nat) :
  globeStarted (fst (fold_left mark rules (s, n))) = globeStarted s.
Proof.
  revert s n. induction rules as [| [valid id] rules IH]; intros s n.
  - reflexivity.
  - cbn [fold_left]. unfold mark at 2. destruct valid; rewrite IH; reflexivity.
Qed.

Lemma started_checkStrength (s : State) :
  globeStarted (checkStrength s) = globeStarted s.
Proof.
  unfold checkStrength.
  pose proof (started_forEach
                (combine (checks (value (document s "regPassword"))) ids)
                s 0) as H.
  destruct (fold_left mark _ (s, 0)) as [s1 n]. exact H.
Qed.

Ltac keeps_started :=
  repeat first
    [ apply preserves_ret | apply preserves_throw | apply preserves_orThrow
    | apply preserves_exec; intros ? ?;
      first [ assumption | apply started_showLogin
            | apply started_showDashboard; assumption
            | repeat match goal with
                     | |- context [match ?x with _ => _ end] => destruct x
                     end; assumption ]
    | apply preserves_bind; [| intros ?]
    | match goal with
      | |- preserves _ (if ?b then _ else _) => destruct b
      | |- preserves _ (match ?x with _ => _ end) => destruct x
      end ].

Lemma started_step (served : FetchResult -> Prop) (s s' : State) :
  step served s s' -> started s -> started s'.
Proof.
  intros H Hs. destruct H.
  - exact Hs.
  - apply started_showLogin.
  - unfold started, showRegister, classList_remove, update.
    cbn [globeStarted]. rewrite hideAll_started. exact Hs.
  - apply started_showDashboard, Hs.
  - unfold started, logout, classList_remove, update.
    cbn [globeStarted]. rewrite hideAll_started. exact Hs.
  - unfold started. rewrite started_checkStrength. exact Hs.
  - unfold register_begin.
    destruct (falsy _ || falsy _); [exact Hs |].
    destruct (encodeURIComponent _); [| exact Hs].
    destruct (encodeURIComponent _); exact Hs.
  - revert s Hs. apply preserves_tryCatch; [| intros e s Hs; exact Hs].
    unfold await, response_json, get, alertValue. keeps_started.
  - unfold login_begin.
    destruct (falsy _ || falsy _); [exact Hs |].
    destruct (encodeURIComponent _); [| exact Hs].
    destruct (encodeURIComponent _); exact Hs.
  - revert s Hs. apply preserves_tryCatch; [| intros e s Hs; exact Hs].
    unfold await, response_json, get, setItem, alertValue. keeps_started.
  - unfold analyzeMessage_begin.
    destruct (falsy _); [exact Hs |].
    destruct (getItem "token" s); [| exact Hs].
    destruct (falsy _); exact Hs.
  - revert s Hs. apply preserves_tryCatch; [| intros e s Hs; exact Hs].
    unfold await, response_json, get, alertValue, assign_innerText.
    keeps_started.
Qed.

(** X3. Once the globe has been started it stays started, whatever the page does
    next: in every later state initGlobe returns at once, so the globe is
    built at most once in the life of a page. *)
Theorem globe_built_once (served : FetchResult -> Prop) (s s' : State) :
  globeStarted s = true ->
  rtc (step served) s s' ->
  globeStarted s' = true /\ initGlobe s' = s'.
Proof.
  intros Hs R.
  assert (H : started s').
  { induction R as [| x y z Hxy _ IH]; [exact Hs |].
    apply IH. exact (started_step served x y Hxy Hs). }
  split; [exact H |]. unfold initGlobe. rewrite H. reflexivity.
Qed.

(** ** Outcomes of register *)

(** X4. A register call that reached the network and was answered with a 2xx
    status and a JSON body (of any content, null included) announces the
    success, shows the login section and no other, starts the globe, and
    leaves storage alone: registering does not log in. *)
Theorem register_success (response : Response) (data : JSValue)
  (s s0 : State) :
  register_begin s = Await s0 ->
  ok response = true ->
  json response = Some data ->
  let s' := register (Resolved response) s in
  alerts s' = alerts s ++ [str "Registered Successfully " ++ [9989%N]]
  /\ only_visible s' "loginSection"
  /\ globeStarted s' = true
  /\ localStorage s' = localStorage s
  /\ console s' = console s.
Proof.
  intros Hb Hok Hj s'.
  assert (E : s' = showLogin
                     (alert (str "Registered Successfully " ++ [9989%N])
                        (read_body s0))).
  { subst s'. unfold register. rewrite Hb.
    unfold register_then. try_unfold. rewrite Hj, Hok. reflexivity. }
  apply register_begin_Await in Hb as [req ->]. rewrite E.
  split; [| split; [| split; [| split]]].
  - unfold showLogin, initGlobe.
    destruct (globeStarted _); reflexivity.
  - intros i Hi. unfold visible, showLogin.
    rewrite initGlobe_sections by exact Hi.
    apply shown_after_hideAll, Hi.
  - apply started_showLogin.
  - rewrite store_showLogin. reflexivity.
  - unfold showLogin, initGlobe.
    destruct (globeStarted _); reflexivity.
Qed.

(** X5. A register call answered outside 2xx with a JSON body shows the
    server's detail and changes nothing else (no transition): a string
    detail is shown as it is, a missing one as the text undefined, any
    other value as its JSON text. *)
Theorem register_rejected (response : Response) (data d : JSValue)
  (s s0 : State) :
  register_begin s = Await s0 ->
  ok response = false ->
  json response = Some data ->
  Get data (str "detail") = Some d ->
  let s' := register (Resolved response) s in
  alerts s' = alerts s ++ [match d with
                           | JString m => m
                           | JUndefined => str "undefined"
                           | _ => JSON_text d
                           end]
  /\ document s' = document s
  /\ localStorage s' = localStorage s
  /\ console s' = console s.
Proof.
  intros Hb Hok Hj Hd s'. subst s'. unfold register. rewrite Hb.
  apply register_begin_Await in Hb as [req ->].
  unfold register_then. try_unfold. rewrite Hj, Hok, Hd.
  destruct d; cbn [JSON_stringify ToString]; repeat split; reflexivity.
Qed.

(** ** Bodies the script cannot use *)

(** X6. When the body of the answer is not JSON, every call ends in its catch
    clause, whatever the status (a 2xx answer with an empty body included):
    the fixed message is shown, a SyntaxError is logged, and page and
    storage stay as they were.  (login does not get that far on 429.) *)
Theorem unparsable_body_caught (response : Response) (s s0 : State) :
  json response = None ->
  (register_begin s = Await s0 ->
   let s' := register (Resolved response) s in
   alerts s' = alerts s ++ [str "Server not running"]
   /\ console s' = console s ++ [SyntaxError]
   /\ document s' = document s
   /\ localStorage s' = localStorage s)
  /\
  (login_begin s = Await s0 -> status response <> 429%Z ->
   let s' := login (Resolved response) s in
   alerts s' = alerts s ++ [str "Server not running"]
   /\ console s' = console s ++ [SyntaxError]
   /\ document s' = document s
   /\ localStorage s' = localStorage s)
  /\
  (analyzeMessage_begin s = Await s0 ->
   let s' := analyzeMessage (Resolved response) s in
   alerts s' = alerts s ++ [str "Server error"]
   /\ console s' = console s ++ [SyntaxError]
   /\ document s' = document s
   /\ localStorage s' = localStorage s).
Proof.
  intros Hj. split; [| split].
  - intros Hb s'. subst s'. unfold register. rewrite Hb.
    apply register_begin_Await in Hb as [req ->].
    unfold register_then. try_unfold. rewrite Hj.
    repeat split; reflexivity.
  - intros Hb Hs s'. subst s'. unfold login. rewrite Hb.
    apply login_begin_Await in Hb as [req ->].
    unfold login_then. try_unfold.
    rewrite (proj2 (Z.eqb_neq _ _) Hs), Hj.
    repeat split; reflexivity.
  - intros Hb s'. subst s'. unfold analyzeMessage. rewrite Hb.
    apply analyzeMessage_begin_Await in Hb as (req & ? & -> & _).
    unfold analyzeMessage_then. try_unfold. rewrite Hj.
    repeat split; reflexivity.
Qed.

(** X7. The JSON body null has no fields to read: login (on any status but
    429) and analyzeMessage (on any status) end in their catch clause with
    a TypeError, and page and storage stay as they were. *)
Theorem null_body_caught (response : Response) (s s0 : State) :
  json response = Some JNull ->
  (login_begin s = Await s0 -> status response <> 429%Z ->
   let s' := login (Resolved response) s in
   alerts s' = alerts s ++ [str "Server not running"]
   /\ console s' = console s ++ [TypeError]
   /\ document s' = document s
   /\ localStorage s' = localStorage s)
  /\
  (analyzeMessage_begin s = Await s0 ->
   let s' := analyzeMessage (Resolved response) s in
   alerts s' = alerts s ++ [str "Server error"]
   /\ console s' = console s ++ [TypeError]
   /\ document s' = document s
   /\ localStorage s' = localStorage s).
Proof.
  intros Hj. split.
  - intros Hb Hs s'. subst s'. unfold login. rewrite Hb.
    apply login_begin_Await in Hb as [req ->].
    unfold login_then. try_unfold.
    rewrite (proj2 (Z.eqb_neq _ _) Hs), Hj. cbn [Get].
    destruct (ok response); repeat split; reflexivity.
  - intros Hb s'. subst s'. unfold analyzeMessage. rewrite Hb.
    apply analyzeMessage_begin_Await in Hb as (req & ? & -> & _).
    unfold analyzeMessage_then. try_unfold. rewrite Hj. cbn [Get].
    destruct (ok response); repeat split; reflexivity.
Qed.

(** X8. A username or password that cannot be escaped (it holds a lone
    surrogate) stops register and login before fetch: the catch clause
    logs the URIError and shows its message, and no request is made. *)
Theorem unescapable_field_no_request (r : FetchResult) (s : State) :
  (value (document s "regUsername") <> [] ->
   value (document s "regPassword") <> [] ->
   encodeURIComponent (value (document s "regUsername")) = None
   \/ encodeURIComponent (value (document s "regPassword")) = None ->
   register r s = alert (str "Server not running") (console_error URIError s)
   /\ requests (register r s) = requests s)
  /\
  (value (document s "loginUsername") <> [] ->
   value (document s "loginPassword") <> [] ->
   encodeURIComponent (value (document s "loginUsername")) = None
   \/ encodeURIComponent (value (document s "loginPassword")) = None ->
   login r s = alert (str "Server not running") (console_error URIError s)
   /\ requests (login r s) = requests s).
Proof.
  assert (F : forall u p : JSString,
            u <> [] -> p <> [] -> falsy u || falsy p = false).
  { intros u p Hu Hp. apply orb_false_iff.
    split; apply not_true_is_false; rewrite falsy_spec; assumption. }
  split; intros Hu Hp He.
  - unfold register, register_begin. rewrite (F _ _ Hu Hp).
    destruct He as [-> | He].
    + split; reflexivity.
    + destruct (encodeURIComponent (value (document s "regUsername")));
        rewrite ?He; split; reflexivity.
  - unfold login, login_begin. rewrite (F _ _ Hu Hp).
    destruct He as [-> | He].
    + split; reflexivity.
    + destruct (encodeURIComponent (value (document s "loginUsername")));
        rewrite ?He; split; reflexivity.
Qed.

(** ** What the server says *)

(** X9. login (outside 2xx and 429) and analyzeMessage (outside 2xx) show the
    detail of the JSON body as the server wrote it, and change nothing
    else: no field of the page is updated and storage is as before. *)
Theorem rejection_shows_detail (response : Response) (data d : JSValue)
  (m : JSString) (s s0 : State) :
  ok response = false ->
  json response = Some data ->
  Get data (str "detail") = Some d ->
  ToString d = Some m ->
  (login_begin s = Await s0 -> status response <> 429%Z ->
   let s' := login (Resolved response) s in
   alerts s' = alerts s ++ [m]
   /\ document s' = document s
   /\ localStorage s' = localStorage s
   /\ console s' = console s)
  /\
  (analyzeMessage_begin s = Await s0 ->
   let s' := analyzeMessage (Resolved response) s in
   alerts s' = alerts s ++ [m]
   /\ document s' = document s
   /\ localStorage s' = localStorage s
   /\ console s' = console s).
Proof.
  intros Hok Hj Hd Hm. split.
  - intros Hb Hs s'. subst s'. unfold login. rewrite Hb.
    apply login_begin_Await in Hb as [req ->].
    unfold login_then. try_unfold.
    rewrite (proj2 (Z.eqb_neq _ _) Hs), Hj, Hok, Hd, Hm.
    repeat split; reflexivity.
  - intros Hb s'. subst s'. unfold analyzeMessage. rewrite Hb.
    apply analyzeMessage_begin_Await in Hb as (req & ? & -> & _).
    unfold analyzeMessage_then. try_unfold.
    rewrite Hj, Hok, Hd, Hm. repeat split; reflexivity.
Qed.

(** X10. Only login and logout touch localStorage: register, analyzeMessage,
    the strength meter and the three show functions leave it as it was,
    whatever the answer of the server. *)
Theorem storage_untouched (r : FetchResult) (s : State) :
  localStorage (register r s) = localStorage s
  /\ localStorage (analyzeMessage r s) = localStorage s
  /\ localStorage (checkStrength s) = localStorage s
  /\ localStorage (showLogin s) = localStorage s
  /\ localStorage (showRegister s) = localStorage s
  /\ localStorage (showDashboard s) = localStorage s.
Proof.
  destruct (store_begin s) as (B1 & _ & B3).
  split; [| split; [| split; [| split; [| split]]]].
  - unfold register. destruct (register_begin s); [exact B1 |].
    rewrite store_register_then. exact B1.
  - unfold analyzeMessage. destruct (analyzeMessage_begin s); [exact B3 |].
    rewrite store_analyzeMessage_then. exact B3.
  - apply store_checkStrength.
  - apply store_showLogin.
  - reflexivity.
  - reflexivity.
Qed.

(** ** The session from login to logout *)

(** What a granted login leaves: the storage written, and every element
    but the five of hideAll and the admin button as it was. *)
Lemma login_granted (response : Response) (t a : JSString) (s s0 : State) :
  login_begin s = Await s0 ->
  grants response t a ->
  localStorage (login (Resolved response) s)
  = <["is_admin" := a]> (<["token" := t]> (localStorage s))
  /\ only_visible (login (Resolved response) s) "dashboardSection"
  /\ forall id,
       id ∉ ["landingSection"; "registerSection"; "loginSection";
             "dashboardSection"; "globeContainer"; "adminBtn"] ->
       document (login (Resolved response) s) id = document s id.
Proof.
  intros Hb (Hok & data & vt & va & Hj & Ht & Hts & Ha & Has).
  unfold login. rewrite Hb.
  apply login_begin_Await in Hb as [req ->].
  unfold login_then. try_unfold.
  rewrite (ok_not_429 _ Hok), Hj, Hok, Ht, Hts, Ha, Has.
  split; [| split].
  - destruct va as [| | [|] | | | |]; reflexivity.
  - apply shown_after_hideAll.
  - intros id Hid. rewrite showDashboard_other.
    + unfold alert. cbn [document].
      destruct va as [| | [|] | | | |];
        unfold set_style_display; rewrite update_other;
        try reflexivity; intros ->; apply Hid;
        rewrite !elem_of_cons; tauto.
    + intros Hin. apply Hid. revert Hin. rewrite !elem_of_cons. tauto.
Qed.

Lemma login_begin_again (s s0 s1 : State) :
  login_begin s = Await s0 ->
  document s1 "loginUsername" = document s "loginUsername" ->
  document s1 "loginPassword" = document s "loginPassword" ->
  exists req, login_begin s1 = Await (fetch req s1).
Proof.
  unfold login_begin. intros H -> ->.
  destruct (falsy _ || falsy _); [discriminate |].
  destruct (encodeURIComponent _); [| discriminate].
  destruct (encodeURIComponent _); [| discriminate].
  eauto.
Qed.

(** X11. The token login stores is the one analyzeMessage sends.  After a
    granted login with a non-empty token [t], once a message [m] is typed,
    analyzeMessage reaches fetch, and its request is the POST to /analyze
    whose Authorization header is Bearer followed by [t]. *)
Theorem token_round_trip (response : Response) (t a m : JSString)
  (s s0 : State) :
  login_begin s = Await s0 ->
  grants response t a ->
  t <> [] -> m <> [] ->
  let s1 := set_value "message" m (login (Resolved response) s) in
  getItem "token" s1 = Some t
  /\ getItem "is_admin" s1 = Some a
  /\ analyzeMessage_begin s1 = Await (fetch (analyze_request m t) s1).
Proof.
  intros Hb G Ht Hm s1.
  destruct (login_granted response t a s s0 Hb G) as (E & _ & _).
  assert (E1 : getItem "token" s1 = Some t).
  { unfold getItem. subst s1. unfold set_value, update.
    cbn [localStorage]. rewrite E.
    rewrite lookup_insert_ne by discriminate. apply lookup_insert_eq. }
  assert (E2 : getItem "is_admin" s1 = Some a).
  { unfold getItem. subst s1. unfold set_value, update.
    cbn [localStorage]. rewrite E. apply lookup_insert_eq. }
  split; [exact E1 |]. split; [exact E2 |].
  unfold analyzeMessage_begin. rewrite E1.
  assert (V : value (document s1 "message") = m).
  { subst s1. unfold set_value. rewrite update_same. reflexivity. }
  rewrite V.
  assert (Fm : falsy m = false)
    by (apply not_true_is_false; rewrite falsy_spec; exact Hm).
  assert (Ft : falsy t = false)
    by (apply not_true_is_false; rewrite falsy_spec; exact Ht).
  rewrite Fm, Ft. reflexivity.
Qed.

(** X12. A second granted login overwrites the first: the two entries hold the
    values of the second answer alone, and the rest of storage is as it
    was before both. *)
Theorem login_overwrites (r1 r2 : Response) (t1 a1 t2 a2 : JSString)
  (s s0 : State) :
  login_begin s = Await s0 ->
  grants r1 t1 a1 ->
  grants r2 t2 a2 ->
  localStorage (login (Resolved r2) (login (Resolved r1) s))
  = <["is_admin" := a2]> (<["token" := t2]> (localStorage s)).
Proof.
  intros Hb G1 G2.
  destruct (login_granted r1 t1 a1 s s0 Hb G1) as (E1 & _ & D1).
  assert (N : forall id, id = "loginUsername" \/ id = "loginPassword" ->
                id ∉ ["landingSection"; "registerSection"; "loginSection";
                      "dashboardSection"; "globeContainer"; "adminBtn"]).
  { intros id [-> | ->]; rewrite !elem_of_cons, elem_of_nil;
      intuition discriminate. }
  destruct (login_begin_again s s0 (login (Resolved r1) s) Hb
              (D1 _ (N _ (or_introl eq_refl)))
              (D1 _ (N _ (or_intror eq_refl)))) as [req Hb1].
  destruct (login_granted r2 t2 a2 _ _ Hb1 G2) as (E2 & _ & _).
  rewrite E2, E1. apply map_eq. intros k.
  destruct (decide (k = "is_admin")) as [-> | Hk1].
  - rewrite !lookup_insert_eq. reflexivity.
  - rewrite (lookup_insert_ne _ "is_admin" k) by congruence.
    rewrite (lookup_insert_ne _ "is_admin" k) by congruence.
    destruct (decide (k = "token")) as [-> | Hk2].
    + rewrite !lookup_insert_eq. reflexivity.
    + rewrite !lookup_insert_ne by congruence. reflexivity.
Qed.


(** X14. logout removes the token and the is_admin entry and no other key,
    hides the admin button whatever it showed, and logs out for good: a
    second logout changes nothing in storage, and analyzeMessage with a
    message then asks for a login without calling fetch. *)
Theorem logout_clears_session (r : FetchResult) (s : State) :
  getItem "token" (logout s) = None
  /\ getItem "is_admin" (logout s) = None
  /\ (forall k, k <> "token" -> k <> "is_admin" ->
                getItem k (logout s) = getItem k s)
  /\ style_display (document (logout s) "adminBtn") = str "none"
  /\ localStorage (logout (logout s)) = localStorage (logout s)
  /\ (value (document s "message") <> [] ->
      analyzeMessage r (logout s)
      = alert (str "Please login first") (logout s)).
Proof.
  assert (L : localStorage (logout s)
              = delete "is_admin" (delete "token" (localStorage s)))
    by reflexivity.
  assert (T : getItem "token" (logout s) = None).
  { unfold getItem. rewrite L.
    rewrite lookup_delete_ne by discriminate. apply lookup_delete_eq. }
  split; [exact T |].
  split; [unfold getItem; rewrite L; apply lookup_delete_eq |].
  split.
  { intros k H1 H2. unfold getItem. rewrite L.
    rewrite !lookup_delete_ne by congruence. reflexivity. }
  split.
  { unfold logout, classList_remove. rewrite update_other by discriminate.
    rewrite hideAll_other
      by (rewrite !elem_of_cons, elem_of_nil; intuition discriminate).
    unfold set_style_display. rewrite update_same. reflexivity. }
  split.
  { assert (L2 : localStorage (logout (logout s))
                 = delete "is_admin" (delete "token" (localStorage (logout s))))
      by reflexivity.
    rewrite L2, L. apply map_eq. intros k.
    destruct (decide (k = "is_admin")) as [-> | Hk1].
    - rewrite !lookup_delete_eq. reflexivity.
    - rewrite (lookup_delete_ne _ "is_admin" k) by congruence.
      destruct (decide (k = "token")) as [-> | Hk2].
      + rewrite lookup_delete_eq.
        rewrite lookup_delete_ne by congruence. rewrite lookup_delete_eq.
        reflexivity.
      + rewrite !lookup_delete_ne by congruence. reflexivity. }
  intros Hm.
  assert (V : value (document (logout s) "message")
              = value (document s "message")).
  { unfold logout, classList_remove. rewrite update_other by discriminate.
    rewrite hideAll_other
      by (rewrite !elem_of_cons, elem_of_nil; intuition discriminate).
    unfold set_style_display. rewrite update_other by discriminate.
    reflexivity. }
  apply (analyzeMessage_without_token r (logout s) T).
  rewrite V. exact Hm.
Qed.

(** ** What analyzeMessage renders *)



(** ** The indicators of the strength meter *)

(** The mark a round writes is two code units long, which is what the
    next round cuts off. *)
Lemma verdict_twice (valid : bool) (old : JSString) :
  verdict valid (verdict valid old) = verdict valid old.
Proof. destruct valid; reflexivity. Qed.

Lemma marked_twice (valid : bool) (el : Element) :
  reads_back (verdict valid (innerText el)) ->
  marked valid (marked valid el) = marked valid el.
Proof.
  unfold marked, reads_back. intros H.
  cbn [classList style_display style_color style_width innerText value].
  rewrite H, verdict_twice, H. destruct valid; reflexivity.
Qed.

Lemma mark_document (s : State) (n : nat) (valid : bool) (id i : string) :
  document (fst (mark (s, n) (valid, id))) i
  = if decide (i = id) then marked valid (document s i) else document s i.
Proof.
  unfold mark, set_style_color, set_innerHTML, set_innerText, update, marked,
    verdict.
  destruct valid; cbn [fst document]; destruct (decide (i = id)) as [-> | ?];
    reflexivity.
Qed.

(** The loop marks each element it is given and no other. *)
Lemma forEach_document (rules : list (bool * string)) (s : State) (n : nat)
  (i : string) :
  NoDup (map snd rules) ->
  (forall valid, (valid, i) ∈ rules ->
     document (fst (fold_left mark rules (s, n))) i
     = marked valid (document s i))
  /\ (i ∉ map snd rules ->
      document (fst (fold_left mark rules (s, n))) i = document s i).
Proof.
  revert s n. induction rules as [| [v id] rules IH]; intros s n ND.
  - split; [intros valid H; apply elem_of_nil in H; contradiction |].
    reflexivity.
  - cbn [map snd] in ND. apply NoDup_cons in ND as [Hid ND].
    cbn [fold_left].
    destruct (mark (s, n) (v, id)) as [s1 n1] eqn:Em.
    assert (D : document s1 i
                = if decide (i = id) then marked v (document s i)
                  else document s i).
    { rewrite <- (mark_document s n v id i), Em. reflexivity. }
    destruct (IH s1 n1 ND) as [IH1 IH2].
    split.
    + intros valid Hin. apply elem_of_cons in Hin as [[= -> ->] | Hin].
      * rewrite IH2 by exact Hid. rewrite D, decide_True by reflexivity.
        reflexivity.
      * rewrite (IH1 valid Hin), D.
        rewrite decide_False; [reflexivity |].
        intros ->. apply Hid. apply list_elem_of_fmap.
        exists (valid, id). split; [reflexivity | exact Hin].
    + intros Hout. cbn [map snd] in Hout.
      rewrite not_elem_of_cons in Hout. destruct Hout as [Hne Hout].
      rewrite (IH2 Hout), D, decide_False by exact Hne. reflexivity.
Qed.

Lemma ids_NoDup (p : JSString) : NoDup (map snd (combine (checks p) ids)).
Proof.
  unfold checks, ids. cbn [combine map snd].
  repeat (apply NoDup_cons_2;
          [rewrite ?elem_of_cons, elem_of_nil; intuition discriminate |]).
  apply NoDup_nil_2.
Qed.

(** The page after [checkStrength]: the five indicators marked, the bar
    reset to its tier, all else as before. *)
Lemma checkStrength_document (s : State) (i : string) :
  let p := value (document s "regPassword") in
  (forall r, i = rule_id r ->
     document (checkStrength s) i
     = marked (bool_decide (holds r p)) (document s i))
  /\ (i = "strengthBar" ->
      document (checkStrength s) i
      = mkElement ["strength-bar"; tier (score s)]
          (style_display (document s i)) (style_color (document s i))
          (style_width (document s i)) (innerText (document s i))
          (value (document s i)))
  /\ (i ∉ "strengthBar" :: ids -> document (checkStrength s) i = document s i).
Proof.
  intros p.
  pose proof (forEach_document (combine (checks p) ids) s 0 i (ids_NoDup p))
    as [F1 F2].
  pose proof (checkStrength_bar s) as B.
  unfold checkStrength, score in *. fold p in B |- *.
  destruct (fold_left mark (combine (checks p) ids) (s, 0)) as [s1 n] eqn:E.
  cbn [fst snd] in *.
  unfold classList_add, set_className in *.
  split; [| split].
  - intros r ->. rewrite !update_other by (destruct r; discriminate).
    apply F1. rewrite checks_decide. unfold ids. cbn [map combine].
    destruct r; cbn [rule_id]; rewrite !elem_of_cons; tauto.
  - intros ->. rewrite !update_same in *. cbn [classList] in B.
    rewrite F2 by (unfold checks, ids; cbn [combine map snd];
                   rewrite !elem_of_cons, elem_of_nil; intuition discriminate).
    cbn [style_display style_color style_width innerText value classList].
    f_equal. exact B.
  - intros Hout. rewrite not_elem_of_cons in Hout. destruct Hout as [Hb Hi].
    rewrite !update_other by exact Hb. apply F2.
    unfold checks. cbn [combine map snd]. exact Hi.
Qed.

(** X17. After checkStrength each of the five indicators shows the verdict of
    its rule: green when the password satisfies the rule, red when it does
    not, and its text is what the page reads from the markup it was given,
    a check mark or a cross, a space and the text it had from its third
    code unit on.  Where that markup reads back as written, the text after
    the mark is the one that was there.  The password field is not
    touched. *)
Theorem strength_indicators (s : State) (r : RuleId) :
  let p := value (document s "regPassword") in
  let old := innerText (document s (rule_id r)) in
  let el := document (checkStrength s) (rule_id r) in
  (holds r p ->
   style_color el = str "limegreen"
   /\ innerText el = innerHTML_text ([9989%N; 32%N] ++ drop 2 old))
  /\ (~ holds r p ->
      style_color el = str "red"
      /\ innerText el = innerHTML_text ([10060%N; 32%N] ++ drop 2 old))
  /\ (reads_back (verdict (bool_decide (holds r p)) old) ->
      drop 2 (innerText el) = drop 2 old)
  /\ value (document (checkStrength s) "regPassword") = p.
Proof.
  intros p old el. subst el.
  destruct (checkStrength_document s (rule_id r)) as (D & _ & _).
  rewrite (D r eq_refl). fold p. fold old.
  destruct (checkStrength_document s "regPassword") as (_ & _ & O).
  rewrite O
    by (unfold ids; rewrite !elem_of_cons, elem_of_nil; intuition discriminate).
  split; [| split; [| split; [| reflexivity]]]; intros H.
  - rewrite bool_decide_eq_true_2 by exact H. split; reflexivity.
  - rewrite bool_decide_eq_false_2 by exact H. split; reflexivity.
  - unfold marked. cbn [innerText]. fold old. rewrite H.
    destruct (bool_decide (holds r p)); reflexivity.
Qed.

(** X18. Running the strength meter again on the page it left changes nothing,
    provided the markup the first run gave the indicators reads back as
    written (labels of plain words do): every element is as after the first
    run, and so is the score. *)
Theorem checkStrength_idempotent (s : State) (i : string) :
  (forall r,
     reads_back
       (verdict (bool_decide (holds r (value (document s "regPassword"))))
          (innerText (document s (rule_id r))))) ->
  document (checkStrength (checkStrength s)) i
  = document (checkStrength s) i
  /\ score (checkStrength s) = score s.
Proof.
  intros Hback.
  assert (P : value (document (checkStrength s) "regPassword")
              = value (document s "regPassword")).
  { destruct (checkStrength_document s "regPassword") as (_ & _ & O).
    rewrite O; [reflexivity |].
    unfold ids. rewrite !elem_of_cons, elem_of_nil. intuition discriminate. }
  assert (Sc : score (checkStrength s) = score s).
  { rewrite !score_satisfied, P. reflexivity. }
  split; [| exact Sc].
  destruct (checkStrength_document (checkStrength s) i) as (D2 & B2 & O2).
  destruct (checkStrength_document s i) as (D1 & B1 & O1).
  destruct (decide (i ∈ "strengthBar" :: ids)) as [Hin | Hout].
  - apply elem_of_cons in Hin as [-> | Hin].
    + rewrite (B2 eq_refl), (B1 eq_refl), Sc. reflexivity.
    + assert (R : exists r, i = rule_id r).
      { unfold ids in Hin. rewrite !elem_of_cons, elem_of_nil in Hin.
        destruct Hin as [-> | [-> | [-> | [-> | [-> | []]]]]];
          [exists RuleLength | exists RuleUpper | exists RuleLower
          | exists RuleDigit | exists RuleSymbol]; reflexivity. }
      destruct R as [r Hr].
      rewrite (D2 r Hr), (D1 r Hr), P. apply marked_twice.
      subst i. apply Hback.
  - rewrite (O2 Hout). reflexivity.
Qed.

Lemma filter_length_all {A} (P : A -> Prop) `{forall x, Decision (P x)}
  (l : list A) :
  length (filter P l) = length l <-> Forall P l.
Proof.
  induction l as [| x l IH].
  - split; [intros _; constructor | reflexivity].
  - rewrite filter_cons. pose proof (length_filter P l) as Hle.
    destruct (decide (P x)) as [Hp | Hp].
    + rewrite Forall_cons. simpl. rewrite <- IH. split; [| lia].
      intros Hl. split; [exact Hp | lia].
    + rewrite Forall_cons. simpl. split; [lia | tauto].
Qed.

(** X20. The bar is strong exactly for the passwords that satisfy all five
    rules; in particular no password of fewer than 8 code units is
    strong. *)
Theorem strong_iff_all_rules (s : State) :
  let p := value (document s "regPassword") in
  (tier (score s) = "strong" <-> forall r, holds r p)
  /\ (length p < 8 -> tier (score s) <> "strong").
Proof.
  intros p.
  assert (A : tier (score s) = "strong" <-> forall r, holds r p).
  { pose proof (score_le_5 s) as H5.
    assert (T : tier (score s) = "strong" <-> score s = 5).
    { unfold tier.
      destruct (Nat.leb_spec (score s) 2);
        [| destruct (Nat.leb_spec (score s) 4)];
        (split; intros H'; try discriminate H'; try reflexivity; lia). }
    rewrite T, score_satisfied. fold p. unfold satisfiedRules.
    change 5 with (length [RuleLength; RuleUpper; RuleLower; RuleDigit;
                           RuleSymbol]).
    rewrite filter_length_all, Forall_forall. split.
    - intros H r. apply H. destruct r; rewrite !elem_of_cons; tauto.
    - intros H r _. apply H. }
  split; [exact A |].
  intros Hlen Hs. destruct A as [A _].
  pose proof (A Hs RuleLength) as H8. cbn [holds] in H8. lia.
Qed.

Lemma filter_length_mono {A} (P Q : A -> Prop)
  `{forall x, Decision (P x)} `{forall x, Decision (Q x)} (l : list A) :
  (forall x, P x -> Q x) -> length (filter P l) <= length (filter Q l).
Proof.
  intros HPQ. induction l as [| x l IH]; [reflexivity |].
  rewrite !filter_cons.
  destruct (decide (P x)) as [Hp | Hp].
  - rewrite decide_True by (apply HPQ, Hp). simpl. lia.
  - destruct (decide (Q x)); simpl; lia.
Qed.

(** X19. A password that contains every code unit of another and is at least as
    long never scores lower: typing more never weakens the verdict. *)
Theorem score_monotone (s : State) (p q : JSString) :
  p ⊆ q ->
  length p <= length q ->
  score (set_value "regPassword" p s) <= score (set_value "regPassword" q s).
Proof.
  intros Hsub Hlen. rewrite !score_satisfied.
  unfold set_value. rewrite !update_same. cbn [value].
  unfold satisfiedRules. apply filter_length_mono.
  assert (E : forall (C : N -> Prop), Exists C p -> Exists C q).
  { intros C. rewrite !Exists_exists. intros (c & Hc & HC). exists c.
    split; [apply Hsub, Hc | exact HC]. }
  intros r. destruct r; cbn [holds]; [lia | apply E ..].
Qed.

(** ** The password toggle and the theme *)

Lemma togglePassword_password (f : PasswordField) :
  input_type f = str "password" ->
  togglePassword f = mkPasswordField (str "text") [55357%N; 56904%N].
Proof.
  intros E. unfold togglePassword. rewrite (decide_True _ _ E).
  rewrite decide_False by discriminate. reflexivity.
Qed.

Lemma togglePassword_other (f : PasswordField) :
  input_type f <> str "password" ->
  togglePassword f = mkPasswordField (str "password") [55357%N; 56385%N].
Proof.
  intros E. unfold togglePassword. rewrite (decide_False _ _ E).
  rewrite decide_True by reflexivity. reflexivity.
Qed.

(** X21. togglePassword leaves the input as text or as password, with the eye
    on a password field and the monkey on a text field; a password field
    becomes text and every other field becomes password; and from the
    first click on, two clicks bring back the same field. *)
Theorem togglePassword_cycle (f : PasswordField) :
  let g := togglePassword f in
  (input_type g = str "text" \/ input_type g = str "password")
  /\ (input_type f = str "password" <-> input_type g = str "text")
  /\ (icon_text g = [55357%N; 56385%N] <-> input_type g = str "password")
  /\ (icon_text g = [55357%N; 56904%N] <-> input_type g = str "text")
  /\ togglePassword (togglePassword g) = g.
Proof.
  intros g. subst g.
  destruct (decide (input_type f = str "password")) as [E | E].
  - rewrite (togglePassword_password f E). cbn [input_type icon_text].
    split; [left; reflexivity |].
    split; [tauto |].
    split; [split; discriminate |].
    split; [tauto |].
    rewrite (togglePassword_other (mkPasswordField _ _)) by discriminate.
    apply togglePassword_password. reflexivity.
  - rewrite (togglePassword_other f E). cbn [input_type icon_text].
    split; [right; reflexivity |].
    split; [split; [contradiction | discriminate] |].
    split; [tauto |].
    split; [split; discriminate |].
    rewrite (togglePassword_password (mkPasswordField _ _)) by reflexivity.
    apply togglePassword_other. discriminate.
Qed.

Lemma classList_toggle_elem (c x : string) (l : list string) :
  x ∈ classList_toggle c l <-> (if decide (x = c) then c ∉ l else x ∈ l).
Proof.
  unfold classList_toggle. case_bool_decide as Hc.
  - rewrite list_elem_of_filter. destruct (decide (x = c)) as [-> | Hx].
    + tauto.
    + tauto.
  - rewrite elem_of_app, list_elem_of_singleton.
    destruct (decide (x = c)) as [-> | Hx]; tauto.
Qed.

(** X22. A click on the theme button switches light-mode on the body and keeps
    every other class, and loads the particles of the theme it leaves: the
    light palette exactly when light-mode is now set.  A second click brings
    back the classes the body had. *)
Theorem themeToggle_palette (th : Theme) :
  let th1 := themeToggle_onclick th in
  let th2 := themeToggle_onclick th1 in
  ("light-mode" ∈ body_classList th1 <-> "light-mode" ∉ body_classList th)
  /\ (forall c, c <> "light-mode" ->
        (c ∈ body_classList th1 <-> c ∈ body_classList th))
  /\ ("light-mode" ∈ body_classList th1 -> loaded th1 = loadParticlesLight)
  /\ ("light-mode" ∉ body_classList th1 -> loaded th1 = loadParticlesDark)
  /\ (forall c, c ∈ body_classList th2 <-> c ∈ body_classList th).
Proof.
  intros th1 th2.
  assert (B : forall t, body_classList (themeToggle_onclick t)
                        = classList_toggle "light-mode" (body_classList t)).
  { intros t. unfold themeToggle_onclick, applyParticlesByTheme.
    cbn [body_classList]. case_bool_decide; reflexivity. }
  assert (T : forall c, c ∈ body_classList th1
                        <-> (if decide (c = "light-mode")
                             then "light-mode" ∉ body_classList th
                             else c ∈ body_classList th)).
  { intros c. subst th1. rewrite B. apply classList_toggle_elem. }
  split; [| split; [| split; [| split]]].
  - rewrite T. rewrite decide_True by reflexivity. reflexivity.
  - intros c Hc. rewrite T. rewrite decide_False by exact Hc. reflexivity.
  - subst th1. rewrite B. unfold themeToggle_onclick, applyParticlesByTheme.
    cbn [body_classList]. intros H.
    rewrite bool_decide_eq_true_2 by exact H. reflexivity.
  - subst th1. rewrite B. unfold themeToggle_onclick, applyParticlesByTheme.
    cbn [body_classList]. intros H.
    rewrite bool_decide_eq_false_2 by exact H. reflexivity.
  - intros c. subst th2. rewrite B, classList_toggle_elem.
    destruct (decide (c = "light-mode")) as [-> | Hc].
    + rewrite T, decide_True by reflexivity.
      destruct (decide ("light-mode" ∈ body_classList th)); tauto.
    + rewrite T, decide_False by exact Hc. reflexivity.
Qed.

End Properties.

(** * The theorems on concrete pages *)

Lemma login_page_awaits :
  login_begin (rt := plain_runtime) login_page
  = Await (state_of (login_begin (rt := plain_runtime) login_page)).
Proof. reflexivity. Qed.



Lemma login_429_rate_limited_witness :
  let s' := login (rt := plain_runtime)
              (Resolved (mkResponse 429 None)) login_page in
  status (mkResponse 429 None) = 429%Z
  /\ alerts s' = [str "Too many requests. Try again later."]
  /\ bodyReads s' = 0
  /\ localStorage s' = ∅.
Proof.
  intros s'.
  destruct (login_429_rate_limited (rt := plain_runtime)
              (mkResponse 429 None) login_page _ login_page_awaits eq_refl)
    as (H1 & H2 & H3 & _).
  split; [reflexivity |].
  split; [exact H1 |].
  split; [exact H2 | exact H3].
Defined.

Lemma failed_call_keeps_session_witness :
  failed Rejected
  /\ localStorage (login (rt := plain_runtime) Rejected login_page) = ∅
  /\ alerts (login (rt := plain_runtime) Rejected login_page)
     = [str "Server not running"].
Proof.
  destruct (failed_call_keeps_session (rt := plain_runtime)
              Rejected login_page
              (state_of (login_begin (rt := plain_runtime) login_page)) I)
    as [H _].
  destruct (H login_page_awaits) as (H1 & msg & H2 & H3).
  split; [exact I |].
  split; [exact H1 |].
  rewrite H2, (H3 eq_refl). reflexivity.
Defined.




(** C6, as stated, fails for a login answer whose flag has no string form.
    From the filled login form on an empty store, the click and the
    arrival of a 2xx body with such a flag lead to a store that has the
    token and no is_admin entry: the second setItem throws after the first
    has written.  The store was neither left alone, nor given both
    entries, nor cleared of both; and with a message typed, analyzeMessage
    sends its request with that token, the missing flag notwithstanding. *)
Lemma token_without_flag :
  paired login_page
  /\ rtc (step (rt := plain_runtime) (fun _ => True)) login_page half_session
  /\ getItem "token" half_session = Some (str "abc")
  /\ getItem "is_admin" half_session = None
  /\ ~ paired half_session
  /\ ~ writes_or_clears_both login_page half_session
  /\ requests (analyzeMessage (rt := plain_runtime) Rejected
                 (set_value "message" (str "hello") half_session))
     = requests half_session
         ++ [analyze_request (rt := plain_runtime) (str "hello") (str "abc")].
Proof.
  assert (T : getItem "token" half_session = Some (str "abc"))
    by (vm_compute; reflexivity).
  assert (A : getItem "is_admin" half_session = None)
    by (vm_compute; reflexivity).
  split; [split; intros [v H]; vm_compute in H; discriminate H |].
  split.
  { apply (rtc_l _ _ (state_of (login_begin (rt := plain_runtime) login_page)));
      [apply step_login |].
    apply rtc_once.
    exact (step_login_then (rt := plain_runtime) (fun _ => True)
             (Resolved (mkResponse 200 (Some unprintable_flag_body)))
             (state_of (login_begin (rt := plain_runtime) login_page)) I). }
  split; [exact T |]. split; [exact A |].
  split.
  { intros [P _]. rewrite T, A in P. destruct (P (ltac:(eauto))) as [? H].
    discriminate H. }
  split; [| vm_compute; reflexivity].
  unfold getItem in T, A.
  intros [E | [(t0 & a & E) | E]]; rewrite E in T, A.
  - vm_compute in T. discriminate T.
  - rewrite lookup_insert_eq in A. discriminate A.
  - rewrite lookup_delete_ne, lookup_delete_eq in T by discriminate.
    discriminate T.
Qed.

Lemma admin_body_in_contract :
  login_contract (rt := plain_runtime)
    (Resolved (mkResponse 200 (Some admin_body))).
Proof.
  intros response data E1 E2. injection E1 as <-. injection E2 as <-.
  intros v Hv. vm_compute in Hv. injection Hv as <-.
  eexists. reflexivity.
Qed.

Lemma login_page_paired : paired login_page.
Proof. split; intros [v H]; vm_compute in H; discriminate H. Qed.

Lemma session_entries_paired_witness :
  (forall r, login_contract (rt := plain_runtime) r ->
             login_contract (rt := plain_runtime) r)
  /\ paired (login_then (rt := plain_runtime)
               (Resolved (mkResponse 200 (Some admin_body))) login_page).
Proof.
  split; [exact (fun r H => H) |].
  destruct (session_entries_paired (rt := plain_runtime)
              (login_contract (rt := plain_runtime)) (fun r H => H))
    as [_ R].
  apply (R login_page _ login_page_paired).
  apply rtc_once, step_login_then, admin_body_in_contract.
Defined.

Lemma empty_field_rejected_witness :
  value (document fresh_page "regUsername") = []
  /\ value (document fresh_page "loginPassword") = []
  /\ alerts (register (rt := plain_runtime) Rejected fresh_page)
     = [str "Please fill all fields"]
  /\ requests (register (rt := plain_runtime) Rejected fresh_page) = []
  /\ alerts (login (rt := plain_runtime) Rejected fresh_page)
     = [str "Please fill all fields"]
  /\ requests (login (rt := plain_runtime) Rejected fresh_page) = [].
Proof.
  destruct (empty_field_rejected (rt := plain_runtime) Rejected fresh_page)
    as [R L].
  destruct (R (or_introl eq_refl)) as [R1 R2].
  destruct (L (or_intror eq_refl)) as [L1 L2].
  split; [reflexivity |]. split; [reflexivity |].
  split; [rewrite R1; reflexivity |]. split; [exact R2 |].
  split; [rewrite L1; reflexivity | exact L2].
Defined.

Lemma analyze_preconditions_witness :
  value (document anonymous_page "message") <> []
  /\ getItem "token" anonymous_page = None
  /\ alerts (analyzeMessage (rt := plain_runtime) Rejected anonymous_page)
     = [str "Please login first"]
  /\ requests (analyzeMessage (rt := plain_runtime) Rejected anonymous_page)
     = [].
Proof.
  assert (Hm : value (document anonymous_page "message") <> [])
    by discriminate.
  destruct (analyze_preconditions (rt := plain_runtime) Rejected
              anonymous_page) as (_ & A2 & A3 & _).
  split; [exact Hm |]. split; [reflexivity |].
  split; [rewrite (A2 Hm eq_refl); reflexivity | exact (A3 eq_refl)].
Defined.

Lemma empty_message_checked_first_witness :
  value (document fresh_page "message") = []
  /\ getItem "token" fresh_page = None
  /\ alerts (analyzeMessage (rt := plain_runtime) Rejected fresh_page)
     = [str "Please enter a message"].
Proof.
  destruct (empty_message_checked_first (rt := plain_runtime) Rejected
              fresh_page) as (_ & E & _).
  destruct (E eq_refl eq_refl) as [E1 _].
  split; [reflexivity |]. split; [reflexivity |].
  rewrite E1. reflexivity.
Defined.

(** ** The end-to-end examples of the specification *)

(** Logging out after the login above: storage is empty, the landing
    section is shown, the admin button is none. *)
Example logout_after_login :
  let s := logout (login (rt := plain_runtime)
                     (Resolved (mkResponse 200 (Some admin_body)))
                     login_page) in
  localStorage s = ∅
  /\ only_visible s "landingSection"
  /\ style_display (document s "adminBtn") = str "none".
Proof.
  intros s. split; [| split].
  - vm_compute. reflexivity.
  - apply shown_after_hideAll.
  - vm_compute. reflexivity.
Qed.

(** Scores of three passwords: one rule, three rules, five rules. *)
Example strength_examples :
  let typed p := set_value "regPassword" (str p) fresh_page in
  let score := score (rt := plain_runtime) in
  let checkStrength := checkStrength (rt := plain_runtime) in
  (score (typed "abc") = 1
   /\ "weak" ∈ classList (document (checkStrength (typed "abc"))
                            "strengthBar"))
  /\ (score (typed "Abcdefgh") = 3
      /\ "medium" ∈ classList (document (checkStrength (typed "Abcdefgh"))
                                 "strengthBar"))
  /\ (score (typed "Passw0rd!") = 5
      /\ "strong" ∈ classList (document (checkStrength (typed "Passw0rd!"))
                                 "strengthBar")).
Proof.
  intros typed score' checkStrength'. subst score' checkStrength'.
  repeat split; try (vm_compute; reflexivity);
    rewrite checkStrength_bar;
    match goal with
    | |- context [tier ?n] =>
        let v := eval vm_compute in (tier n) in
        change (tier n) with v
    end;
    rewrite !elem_of_cons; tauto.
Qed.

(** Why [login_contract] is there.  A 2xx body whose is_admin is an object
    with an own toString entry makes the second setItem throw after the
    first has stored the token: the catch clause runs on a store that has
    the token and no flag. *)
Example flag_must_print (rt : JSRuntime) :
  let body := JObject [(str "access_token", JString (str "abc"));
                       (str "is_admin",
                        JObject [(str "toString", JNumber 1)])] in
  let s' := login (Resolved (mkResponse 200 (Some body))) login_page in
  (encodeURIComponent (str "alice") <> None ->
   encodeURIComponent (str "secret") <> None ->
   getItem "token" s' = Some (str "abc")
   /\ getItem "is_admin" s' = None
   /\ alerts s' = [str "Server not running"]).
Proof.
  intros body s' Hu Hp. subst s'. unfold login, login_begin.
  change (value (document login_page "loginUsername")) with (str "alice").
  change (value (document login_page "loginPassword")) with (str "secret").
  destruct (encodeURIComponent (str "alice")); [| contradiction].
  destruct (encodeURIComponent (str "secret")); [| contradiction].
  vm_compute. repeat split; reflexivity.
Qed.

(** ** The further properties on concrete pages *)

Lemma register_page_awaits :
  register_begin (rt := plain_runtime) register_page
  = Await (state_of (register_begin (rt := plain_runtime) register_page)).
Proof. reflexivity. Qed.

Lemma globe_built_once_witness :
  globeStarted (showLogin fresh_page) = true
  /\ globeStarted (showRegister (showLogin fresh_page)) = true
  /\ initGlobe (showRegister (showLogin fresh_page))
     = showRegister (showLogin fresh_page).
Proof.
  assert (H : globeStarted (showLogin fresh_page) = true) by reflexivity.
  split; [exact H |].
  exact (globe_built_once (rt := plain_runtime) (fun _ => True)
           (showLogin fresh_page) (showRegister (showLogin fresh_page)) H
           (rtc_once _ _ (step_showRegister _ _))).
Defined.

Lemma register_success_witness :
  let response := mkResponse 201 (Some JNull) in
  let s' := register (rt := plain_runtime) (Resolved response)
              register_page in
  ok response = true
  /\ alerts s' = [str "Registered Successfully " ++ [9989%N]]
  /\ only_visible s' "loginSection"
  /\ localStorage s' = ∅.
Proof.
  intros response s'.
  destruct (register_success (rt := plain_runtime) response JNull
              register_page _ register_page_awaits eq_refl eq_refl)
    as (H1 & H2 & _ & H4 & _).
  split; [reflexivity |]. split; [exact H1 |].
  split; [exact H2 | exact H4].
Defined.

Lemma register_rejected_witness :
  let response := mkResponse 400 (Some (detail_body "Username taken")) in
  let s' := register (rt := plain_runtime) (Resolved response)
              register_page in
  ok response = false
  /\ alerts s' = [str "Username taken"]
  /\ document s' = document register_page.
Proof.
  intros response s'.
  destruct (register_rejected (rt := plain_runtime) response
              (detail_body "Username taken") (JString (str "Username taken"))
              register_page _ register_page_awaits eq_refl eq_refl eq_refl)
    as (H1 & H2 & _).
  split; [reflexivity |]. split; [exact H1 | exact H2].
Defined.

Lemma unparsable_body_caught_witness :
  let response := mkResponse 200 None in
  json response = None
  /\ alerts (register (rt := plain_runtime) (Resolved response)
               register_page)
     = [str "Server not running"]
  /\ document (register (rt := plain_runtime) (Resolved response)
                 register_page)
     = document register_page.
Proof.
  intros response.
  destruct (unparsable_body_caught (rt := plain_runtime) response
              register_page
              (state_of (register_begin (rt := plain_runtime) register_page))
              eq_refl) as [R _].
  destruct (R register_page_awaits) as (H1 & _ & H3 & _).
  split; [reflexivity |]. split; [exact H1 | exact H3].
Defined.

Lemma null_body_caught_witness :
  let response := mkResponse 200 (Some JNull) in
  json response = Some JNull
  /\ alerts (login (rt := plain_runtime) (Resolved response) login_page)
     = [str "Server not running"]
  /\ console (login (rt := plain_runtime) (Resolved response) login_page)
     = [TypeError]
  /\ localStorage (login (rt := plain_runtime) (Resolved response)
                     login_page) = ∅.
Proof.
  intros response.
  destruct (null_body_caught (rt := plain_runtime) response login_page
              (state_of (login_begin (rt := plain_runtime) login_page))
              eq_refl) as [L _].
  assert (Hs : status response <> 429%Z) by discriminate.
  destruct (L login_page_awaits Hs) as (H1 & H2 & _ & H4).
  split; [reflexivity |]. split; [exact H1 |].
  split; [exact H2 | exact H4].
Defined.

Lemma rejection_shows_detail_witness :
  let response := mkResponse 401 (Some (detail_body "Invalid credentials")) in
  ok response = false
  /\ alerts (login (rt := plain_runtime) (Resolved response) login_page)
     = [str "Invalid credentials"]
  /\ document (login (rt := plain_runtime) (Resolved response) login_page)
     = document login_page.
Proof.
  intros response.
  destruct (rejection_shows_detail (rt := plain_runtime) response
              (detail_body "Invalid credentials")
              (JString (str "Invalid credentials"))
              (str "Invalid credentials") login_page
              (state_of (login_begin (rt := plain_runtime) login_page))
              eq_refl eq_refl eq_refl eq_refl) as [L _].
  assert (Hs : status response <> 429%Z) by discriminate.
  destruct (L login_page_awaits Hs) as (H1 & H2 & _).
  split; [reflexivity |]. split; [exact H1 | exact H2].
Defined.

Lemma admin_body_grants :
  grants (rt := plain_runtime) (mkResponse 200 (Some admin_body))
    (str "abc") (str "true").
Proof.
  split; [reflexivity |].
  exists admin_body, (JString (str "abc")), (JBool true).
  repeat split; reflexivity.
Qed.

Lemma user_body_grants :
  grants (rt := plain_runtime) (mkResponse 200 (Some user_body))
    (str "xyz") (str "false").
Proof.
  split; [reflexivity |].
  exists user_body, (JString (str "xyz")), (JBool false).
  repeat split; reflexivity.
Qed.

Lemma token_round_trip_witness :
  let s1 := set_value "message" (str "hello")
              (login (rt := plain_runtime)
                 (Resolved (mkResponse 200 (Some admin_body))) login_page) in
  str "abc" <> [] /\ str "hello" <> []
  /\ getItem "token" s1 = Some (str "abc")
  /\ analyzeMessage_begin (rt := plain_runtime) s1
     = Await (fetch (analyze_request (rt := plain_runtime)
                       (str "hello") (str "abc")) s1).
Proof.
  intros s1.
  assert (Ht : str "abc" <> []) by discriminate.
  assert (Hm : str "hello" <> []) by discriminate.
  destruct (token_round_trip (rt := plain_runtime)
              (mkResponse 200 (Some admin_body)) (str "abc") (str "true")
              (str "hello") login_page _ login_page_awaits
              admin_body_grants Ht Hm) as (H1 & _ & H3).
  split; [exact Ht |]. split; [exact Hm |].
  split; [exact H1 | exact H3].
Defined.

Lemma login_overwrites_witness :
  localStorage
    (login (rt := plain_runtime) (Resolved (mkResponse 200 (Some user_body)))
       (login (rt := plain_runtime)
          (Resolved (mkResponse 200 (Some admin_body))) login_page))
  = <["is_admin" := str "false"]> (<["token" := str "xyz"]> ∅).
Proof.
  exact (login_overwrites (rt := plain_runtime)
           (mkResponse 200 (Some admin_body)) (mkResponse 200 (Some user_body))
           (str "abc") (str "true") (str "xyz") (str "false")
           login_page _ login_page_awaits admin_body_grants user_body_grants).
Defined.






Lemma checkStrength_idempotent_witness :
  reads_back (rt := plain_runtime)
    (verdict true (innerText (document labelled_page "rule-upper")))
  /\ innerText (document (checkStrength (rt := plain_runtime) labelled_page)
                  "rule-upper")
     = [9989%N; 32%N] ++ str "Uppercase letter"
  /\ document (checkStrength (rt := plain_runtime)
                 (checkStrength (rt := plain_runtime) labelled_page))
       "rule-upper"
     = document (checkStrength (rt := plain_runtime) labelled_page)
         "rule-upper".
Proof.
  split; [reflexivity |]. split; [vm_compute; reflexivity |].
  apply (checkStrength_idempotent (rt := plain_runtime) labelled_page
           "rule-upper").
  intros r. reflexivity.
Defined.

Lemma score_monotone_witness :
  str "abc" ⊆ str "abcD1"
  /\ score (rt := plain_runtime)
       (set_value "regPassword" (str "abc") fresh_page)
     <= score (rt := plain_runtime)
          (set_value "regPassword" (str "abcD1") fresh_page).
Proof.
  assert (H : str "abc" ⊆ str "abcD1").
  { change (str "abc") with [97%N; 98%N; 99%N].
    change (str "abcD1") with [97%N; 98%N; 99%N; 68%N; 49%N].
    intros x. rewrite !elem_of_cons. tauto. }
  split; [exact H |].
  apply (score_monotone (rt := plain_runtime) fresh_page _ _ H).
  vm_compute. lia.
Defined.

Lemma unescapable_field_no_request_witness :
  encodeURIComponent (JSRuntime := strict_runtime)
    (value (document odd_login_page "loginUsername")) = None
  /\ requests (login (rt := strict_runtime) Rejected odd_login_page) = []
  /\ alerts (login (rt := strict_runtime) Rejected odd_login_page)
     = [str "Server not running"].
Proof.
  destruct (unescapable_field_no_request (rt := strict_runtime) Rejected
              odd_login_page) as [_ L].
  assert (Hu : value (document odd_login_page "loginUsername") <> [])
    by discriminate.
  assert (Hp : value (document odd_login_page "loginPassword") <> [])
    by discriminate.
  destruct (L Hu Hp (or_introl eq_refl)) as [L1 L2].
  split; [reflexivity |]. split; [exact L2 |].
  rewrite L1. reflexivity.
Defined.
